(** * Fitness-Web: the session gate, the recent-views tracker and the
      content and community handlers of [app.py], embedded in Rocq.

    Every handler of the Flask application reads two process-wide objects,
    the session and the document store, and returns a response.  Here a
    handler is a function from a request and a [world] (session plus store)
    to a response and a new [world].  Python dictionaries are finite maps,
    the [recent_views] array is a list of dictionaries, and an exception
    that a handler catches at its boundary is an explicit result. *)

From Stdlib Require Import ZArith String Ascii.
From stdpp Require Import gmap strings list fin_maps pretty.

Local Open Scope string_scope.
Local Open Scope Z_scope.

(** ** Values *)

(** The values the handlers inspect: JSON scalars, a JSON array of strings
    (ingredients, instructions, tags), a timestamp read back from the store
    ([datetime]), and the [firestore.SERVER_TIMESTAMP] sentinel.  A string
    is a sequence of characters with code points below 256. *)
Inductive value : Type :=
  | VNone
  | VBool (b : bool)
  | VInt (n : Z)
  | VStr (s : string)
  | VList (items : list string)
  | VTime (t : Z)
  | VServerTimestamp.

#[global] Instance value_eq_dec : EqDecision value.
Proof. solve_decision. Defined.

#[global] Instance value_inhabited : Inhabited value := populate VNone.

Abbreviation dict := (gmap string value).

(** Python's truth test, as used by [not data[field]] and [if role]. *)
Definition truthy (v : value) : bool :=
  match v with
  | VNone => false
  | VBool b => b
  | VInt n => negb (n =? 0)
  | VStr s => negb (String.eqb s "")
  | VList items => match items with [] => false | _ :: _ => true end
  | VTime _ => true
  | VServerTimestamp => true
  end.

(** Python's [==] on these values: structural, except that [True] and
    [False] are the integers 1 and 0. *)
Definition py_norm (v : value) : value :=
  match v with
  | VBool b => VInt (Z.b2z b)
  | _ => v
  end.

Definition py_eq (a b : value) : bool := bool_decide (py_norm a = py_norm b).

(** [d.get(k)], with [None] when the key is absent, and [d.get(k, dflt)]. *)
Definition get (d : dict) (k : string) : value := default VNone (d !! k).
Definition get_or (d : dict) (k : string) (dflt : value) : value :=
  default dflt (d !! k).

(** ** Strings: [str.split] on one separator and [str.strip] *)

Definition isspace (c : ascii) : bool :=
  let n := nat_of_ascii c in
  ((9 <=? n) && (n <=? 13))%nat || ((28 <=? n) && (n <=? 32))%nat
  || (n =? 133)%nat || (n =? 160)%nat.

Fixpoint split (sep : ascii) (s : string) : list string :=
  match s with
  | EmptyString => [EmptyString]
  | String c rest =>
      if Ascii.eqb c sep then EmptyString :: split sep rest
      else match split sep rest with
           | [] => [String c EmptyString]
           | w :: ws => String c w :: ws
           end
  end.

Fixpoint lstrip (s : string) : string :=
  match s with
  | EmptyString => EmptyString
  | String c rest => if isspace c then lstrip rest else s
  end.

Fixpoint rstrip (s : string) : string :=
  match s with
  | EmptyString => EmptyString
  | String c rest =>
      match rstrip rest with
      | EmptyString => if isspace c then EmptyString else String c EmptyString
      | kept => String c kept
      end
  end.

Definition strip (s : string) : string := rstrip (lstrip s).

(** A string of white space only. *)
Definition blank (s : string) : Prop :=
  Forall (fun c => isspace c = true) (list_ascii_of_string s).

(** [[piece.strip() for piece in s.split(sep) if piece.strip()]] *)
Definition split_strip (sep : ascii) (s : string) : list string :=
  List.filter (fun piece => negb (String.eqb piece ""))
              (List.map strip (split sep s)).

Definition newline : ascii := ascii_of_nat 10.
Definition comma : ascii := ascii_of_nat 44.

(** The string-or-sequence rule of the recipe handlers:
    [if isinstance(x, str): x = [...]], anything else is kept. *)
Definition normalize (sep : ascii) (v : value) : value :=
  match v with
  | VStr s => VList (split_strip sep s)
  | _ => v
  end.

(** ** The document store, the session and the request *)

(** A document of the [users] collection.  The handlers read and write
    three of its fields; [recent_views] is an array of view dictionaries. *)
Record user_doc : Type := UserDoc {
  role : option value;
  email : option value;
  recent_views : option (list dict)
}.

(** The collections of the store.  [members] is the [members]
    sub-collection of each group, keyed by group id and then by user id. *)
Record database : Type := Database {
  users : gmap string user_doc;
  blogs : gmap string dict;
  recipes : gmap string dict;
  groups : gmap string dict;
  members : gmap string (gmap string dict)
}.

(** Flask's [session].  The application writes the keys [uid], [role] and
    [email] and no other; [None] is an absent key, and [uid] is the string
    handed out by the identity service. *)
Record session_state : Type := Session {
  s_uid : option string;
  s_role : option value;
  s_email : option value
}.

Definition no_session : session_state := Session None None None.

Record world : Type := World {
  session : session_state;
  db : database
}.

(** What one request brings from outside: the parsed JSON body
    ([request.get_json()]), the reading of [datetime.datetime.now()], the
    timestamp the store gives to the writes of this request, and the id the
    store picks for [collection.document()]. *)
Record request : Type := Request {
  json : option dict;
  now : Z;
  commit_time : Z;
  auto_id : string
}.

(** An exception caught at a handler's boundary; its text, [str(e)], goes
    into the response and is kept symbolic. *)
Inductive exn : Type :=
  | KeyError (key : string)
  | TypeError (a b : value)
  | AuthError (text : string).

Inductive outcome (A : Type) : Type :=
  | Returned (a : A)
  | Raised (e : exn).
Arguments Returned {A} a.
Arguments Raised {A} e.

(** The payload of [jsonify]. *)
Inductive payload : Type :=
  | JValue (v : value)
  | JDoc (d : dict)
  | JDocs (ds : list dict)
  | JError (e : exn).

Inductive response : Type :=
  | Redirect (endpoint : string)
  | Plain (text : string) (status : nat)
  | Jsonify (body : list (string * payload)) (status : nat).

Definition handler : Type := request -> world -> response * world.

Definition failure (msg : string) (status : nat) : response :=
  Jsonify [("success", JValue (VBool false)); ("error", JValue (VStr msg))] status.

Definition crashed (e : exn) : response :=
  Jsonify [("success", JValue (VBool false)); ("error", JError e)] 500.

Definition succeeded (msg : string) : response :=
  Jsonify [("success", JValue (VBool true)); ("message", JValue (VStr msg))] 200.

(** A write resolves a [SERVER_TIMESTAMP] held by a field of the document
    to the timestamp of the commit. *)
Definition resolve (ts : Z) (v : value) : value :=
  match v with
  | VServerTimestamp => VTime ts
  | _ => v
  end.

(** [ref.set(data)] replaces the document; [ref.update(data)] overwrites
    the given fields and keeps the others. *)
Definition doc_set (ts : Z) (data : dict) : dict := resolve ts <$> data.
Definition doc_update (ts : Z) (data old : dict) : dict :=
  (resolve ts <$> data) ∪ old.

Definition with_users (st : database) (us : gmap string user_doc) : database :=
  Database us (blogs st) (recipes st) (groups st) (members st).
Definition with_blogs (st : database) (bs : gmap string dict) : database :=
  Database (users st) bs (recipes st) (groups st) (members st).
Definition with_recipes (st : database) (rs : gmap string dict) : database :=
  Database (users st) (blogs st) rs (groups st) (members st).
Definition with_members (st : database) (ms : gmap string (gmap string dict)) : database :=
  Database (users st) (blogs st) (recipes st) (groups st) ms.

Definition members_of (st : database) (group_id : string) : gmap string dict :=
  default ∅ (members st !! group_id).

(** The list stored for a user: [[]] without a document or without the field. *)
Definition views_of (st : database) (uid : string) : list dict :=
  match users st !! uid with
  | Some doc => default [] (recent_views doc)
  | None => []
  end.

(** ** What the application takes from its collaborators *)

(** The identity service ([firebase_auth.verify_id_token] followed by
    [decoded_token["uid"]]), the two date renderings of [datetime], and the
    text [str(firestore.SERVER_TIMESTAMP)]. *)
Class Platform : Type := {
  verify_id_token : value -> outcome string;
  isoformat : Z -> string;
  strftime_ymd : Z -> string;
  server_timestamp_str : string
}.

Section App.
Context `{Platform}.

(** ** [login_required] *)

(** The decorator: [f] is the decorated function and the result is the
    wrapper that Flask calls. *)
Definition login_required (required : option string) (f : handler) : handler :=
  fun req w =>
    match s_uid (session w) with
    | None => (Redirect "login", w)
    | Some _ =>
        match required with
        | Some r =>
            if truthy (VStr r) && negb (py_eq (default VNone (s_role (session w))) (VStr r))
            then (Plain "Unauthorized" 403, w)
            else f req w
        | None => f req w
        end
    end.

(** ** [clean_firestore_data] *)

(** Of the values of this model only a string can print as the sentinel
    does, next to the sentinel itself. *)
Definition clean_value (now : Z) (v : value) : value :=
  match v with
  | VTime t => VStr (isoformat t)
  | VList items => VList items
  | VServerTimestamp => VStr (isoformat now)
  | VStr s => if String.eqb s server_timestamp_str then VStr (isoformat now) else v
  | _ => v
  end.

Definition clean_firestore_data (now : Z) (data : dict) : dict :=
  clean_value now <$> data.

(** ** [track_user_view_internal] *)

(** The two views name the same item: the test of the list comprehension,
    on two stored dictionaries. *)
Definition same_item (a b : dict) : bool :=
  py_eq (get a "id") (get b "id") && py_eq (get a "type") (get b "type").

(** [not (v.get("id") == view_data["id"] and v.get("type") == view_data["type"])];
    [None] is the [KeyError] of a subscript on [view_data]. *)
Definition keep_view (view_data v : dict) : option bool :=
  id ← view_data !! "id";
  if py_eq (get v "id") id
  then ty ← view_data !! "type"; Some (negb (py_eq (get v "type") ty))
  else Some true.

Fixpoint filter_views (view_data : dict) (current_views : list dict) : option (list dict) :=
  match current_views with
  | [] => Some []
  | v :: rest =>
      keep ← keep_view view_data v;
      kept ← filter_views view_data rest;
      Some (if keep : bool then v :: kept else kept)
  end.

(** The f-string of the final [print] subscripts [view_data] twice. *)
Definition printable (view_data : dict) : bool :=
  bool_decide (is_Some (view_data !! "type")) && bool_decide (is_Some (view_data !! "id")).

Definition track_user_view_internal (view_data : dict) (uid : string) (st : database)
  : bool * database :=
  match users st !! uid with
  | Some doc =>
      let current_views := default [] (recent_views doc) in
      match filter_views view_data current_views with
      | None => (false, st)
      | Some kept =>
          let inserted := view_data :: kept in
          let limited :=
            if (50 <? length inserted)%nat then take 50 inserted else inserted in
          let st' := with_users st
                       (<[uid := UserDoc (role doc) (email doc) (Some limited)]> (users st)) in
          (printable view_data, st')
      end
  | None =>
      let st' := with_users st
                   (<[uid := UserDoc None None (Some [view_data])]> (users st)) in
      (printable view_data, st')
  end.

(** ** Session login *)

Definition session_login : handler := fun req w =>
  match json req with
  | None => (Jsonify [("error", JValue (VStr "No JSON data received"))] 400, w)
  | Some data =>
      if bool_decide (data = ∅)
      then (Jsonify [("error", JValue (VStr "No JSON data received"))] 400, w)
      else
        let id_token := get data "idToken" in
        if negb (truthy id_token)
        then (Jsonify [("error", JValue (VStr "No ID token provided"))] 400, w)
        else
          match verify_id_token id_token with
          | Raised e => (Jsonify [("error", JError e)] 400, w)
          | Returned uid =>
              match users (db w) !! uid with
              | None => (Jsonify [("error", JValue (VStr "User not found"))] 400, w)
              | Some user_data =>
                  (Jsonify [("success", JValue (VBool true))] 200,
                   World (Session (Some uid)
                                  (Some (default (VStr "user") (role user_data)))
                                  (Some (default VNone (email user_data))))
                         (db w))
              end
          end
  end.

Definition logout : handler := fun req w =>
  (Redirect "login", World no_session (db w)).

(** ** Recent views: the HTTP handlers *)

(** The body of a JSON request after [if not data: return ...]. *)
Definition given (data : option dict) : option dict :=
  match data with
  | Some d => if bool_decide (d = ∅) then None else Some d
  | None => None
  end.

(** [if not uid] on [session.get("uid")]. *)
Definition logged_uid (s : session_state) : option string :=
  match s_uid s with
  | Some uid => if String.eqb uid "" then None else Some uid
  | None => None
  end.

Definition dict_of (items : list (string * value)) : dict := list_to_map items.

Definition track_user_view : handler :=
  login_required None (fun req w =>
    match logged_uid (session w) with
    | None => (failure "User not logged in" 401, w)
    | Some uid =>
        match given (json req) with
        | None => (failure "No data provided" 400, w)
        | Some data =>
            match List.find (fun field => bool_decide (data !! field = None))
                            ["type"; "id"; "title"; "url"] with
            | Some field => (failure ("Missing required field: " +:+ field) 400, w)
            | None =>
                let view_data := dict_of
                  [("type", get data "type");
                   ("id", get data "id");
                   ("title", get data "title");
                   ("description", get_or data "description" (VStr ""));
                   ("image", get_or data "image" (VStr ""));
                   ("url", get data "url");
                   ("viewedAt", VServerTimestamp)] in
                let '(success, st) := track_user_view_internal view_data uid (db w) in
                (if success : bool
                 then succeeded "View tracked successfully"
                 else failure "Failed to track view" 200,
                 World (session w) st)
            end
        end
    end).

(** [hasattr(value, 'isoformat')] holds of a timestamp only. *)
Definition clean_view (view : dict) : dict :=
  (fun v => match v with VTime t => VStr (isoformat t) | _ => v end) <$> view.

Definition get_user_recent_views : handler :=
  login_required None (fun req w =>
    match logged_uid (session w) with
    | None => (failure "User not logged in" 401, w)
    | Some uid =>
        match users (db w) !! uid with
        | None =>
            (Jsonify [("success", JValue (VBool true)); ("recent_views", JDocs [])] 200, w)
        | Some user_data =>
            let views := default [] (recent_views user_data) in
            (Jsonify [("success", JValue (VBool true));
                      ("recent_views", JDocs (List.map clean_view views))] 200, w)
        end
    end).

Definition remove_recent_view : handler :=
  login_required None (fun req w =>
    match logged_uid (session w) with
    | None => (failure "User not logged in" 401, w)
    | Some uid =>
        match given (json req) with
        | None => (failure "No data provided" 400, w)
        | Some data =>
            let view_id := get data "viewId" in
            let view_type := get data "viewType" in
            if negb (truthy view_id) || negb (truthy view_type)
            then (failure "Missing viewId or viewType" 400, w)
            else
              match users (db w) !! uid with
              | Some user_data =>
                  let views := default [] (recent_views user_data) in
                  let updated_views :=
                    List.filter (fun view =>
                      negb (py_eq (get view "id") view_id && py_eq (get view "type") view_type))
                      views in
                  (succeeded "View removed successfully",
                   World (session w)
                     (with_users (db w)
                        (<[uid := UserDoc (role user_data) (email user_data)
                                          (Some updated_views)]> (users (db w)))))
              | None => (failure "User not found" 404, w)
              end
        end
    end).

(** ** Listings: [stream], [where] and [list.sort] *)

(** Python's [<] on two sort keys; values of different kinds do not
    compare, and neither do two [None]. *)
Fixpoint lt_strings (a b : list string) : bool :=
  match a, b with
  | _, [] => false
  | [], _ :: _ => true
  | x :: a', y :: b' =>
      if String.ltb x y then true
      else if String.ltb y x then false
      else lt_strings a' b'
  end.

Definition py_lt (a b : value) : outcome bool :=
  match py_norm a, py_norm b with
  | VInt m, VInt n => Returned (m <? n)
  | VStr s, VStr t => Returned (String.ltb s t)
  | VList l, VList r => Returned (lt_strings l r)
  | VTime s, VTime t => Returned (s <? t)
  | _, _ => Raised (TypeError a b)
  end.

Fixpoint insert_sorted (key : dict -> value) (x : dict) (sorted : list dict)
  : outcome (list dict) :=
  match sorted with
  | [] => Returned [x]
  | y :: rest =>
      match py_lt (key y) (key x) with
      | Raised e => Raised e
      | Returned true =>
          match insert_sorted key x rest with
          | Raised e => Raised e
          | Returned placed => Returned (y :: placed)
          end
      | Returned false => Returned (x :: y :: rest)
      end
  end.

(** A stable ascending sort by [key]. *)
Fixpoint sort_by (key : dict -> value) (l : list dict) : outcome (list dict) :=
  match l with
  | [] => Returned []
  | x :: rest =>
      match sort_by key rest with
      | Raised e => Raised e
      | Returned sorted => insert_sorted key x sorted
      end
  end.

(** [l.sort(key=key, reverse=True)]: descending, equal keys in their
    original order. *)
Definition sort_reverse (key : dict -> value) (l : list dict) : outcome (list dict) :=
  match sort_by key (rev l) with
  | Raised e => Raised e
  | Returned sorted => Returned (rev sorted)
  end.

Definition created_at (x : dict) : value := get_or x "createdAt" (VStr "").

Definition published (entry : string * dict) : bool :=
  bool_decide (entry.2 !! "status" = Some (VStr "published")).

(** The loop that cleans each streamed document and adds its id. *)
Definition listed (now : Z) (entries : list (string * dict)) : list dict :=
  List.map (fun entry => <["id" := VStr entry.1]> (clean_firestore_data now entry.2))
           entries.

Definition listing (name : string) (now : Z) (entries : list (string * dict)) (w : world)
  : response * world :=
  match sort_reverse created_at (listed now entries) with
  | Returned sorted =>
      (Jsonify [("success", JValue (VBool true)); (name, JDocs sorted)] 200, w)
  | Raised e => (crashed e, w)
  end.

(** ** Blogs *)

Definition get_blogs : handler := fun req w =>
  listing "blogs" (now req) (List.filter published (map_to_list (blogs (db w)))) w.

Definition get_admin_blogs : handler :=
  login_required (Some "admin") (fun req w =>
    listing "blogs" (now req) (map_to_list (blogs (db w))) w).

Definition get_single_blog (blog_id : string) : handler := fun req w =>
  match blogs (db w) !! blog_id with
  | None => (failure "Blog not found" 404, w)
  | Some doc =>
      let blog_data := <["id" := VStr blog_id]> (clean_firestore_data (now req) doc) in
      let w' :=
        match s_uid (session w) with
        | Some uid =>
            let view_data := dict_of
              [("type", VStr "blog");
               ("id", VStr blog_id);
               ("title", get_or blog_data "title" (VStr "Untitled Blog"));
               ("description", get_or blog_data "shortDesc" (VStr ""));
               ("image", get_or blog_data "image" (VStr ""));
               ("url", VStr ("/blog/" +:+ blog_id))] in
            World (session w) (track_user_view_internal view_data uid (db w)).2
        | None => w
        end in
      (Jsonify [("success", JValue (VBool true)); ("blog", JDoc blog_data)] 200, w')
  end.

Definition required_fields : list string := ["title"; "shortDesc"; "content"; "status"].

(** [field not in data or not data[field]] *)
Definition missing (data : dict) (field : string) : bool :=
  match data !! field with
  | None => true
  | Some v => negb (truthy v)
  end.

Definition of_session (o : option string) : value :=
  match o with
  | Some s => VStr s
  | None => VNone
  end.

Definition create_blog : handler :=
  login_required (Some "admin") (fun req w =>
    match given (json req) with
    | None => (failure "No data provided" 400, w)
    | Some data =>
        match List.find (missing data) required_fields with
        | Some field => (failure ("Missing required field: " +:+ field) 400, w)
        | None =>
            let blog_data := dict_of
              [("title", get data "title");
               ("shortDesc", get data "shortDesc");
               ("content", get data "content");
               ("status", get data "status");
               ("date", get_or data "date" (VStr (strftime_ymd (now req))));
               ("image", get_or data "image"
                  (VStr "https://placehold.co/600x400/3d3d3d/ffffff?text=Blog+Image"));
               ("author", default (VStr "Admin") (s_email (session w)));
               ("authorId", of_session (s_uid (session w)));
               ("createdAt", VServerTimestamp);
               ("updatedAt", VServerTimestamp)] in
            let blog_id := auto_id req in
            let st := with_blogs (db w)
                        (<[blog_id := doc_set (commit_time req) blog_data]> (blogs (db w))) in
            let safe_data :=
              clean_firestore_data (now req) (<["id" := VStr blog_id]> blog_data) in
            (Jsonify [("success", JValue (VBool true)); ("blog", JDoc safe_data);
                      ("message", JValue (VStr "Blog created successfully"))] 200,
             World (session w) st)
        end
    end).

(** [for field in fields: if field in data: update_data[field] = data[field]] *)
Definition copy_fields (fields : list string) (data update_data : dict) : dict :=
  foldl (fun acc field =>
           match data !! field with
           | Some v => <[field := v]> acc
           | None => acc
           end) update_data fields.

Definition blog_fields : list string :=
  ["title"; "shortDesc"; "content"; "status"; "date"; "image"].

Definition update_blog (blog_id : string) : handler :=
  login_required (Some "admin") (fun req w =>
    match given (json req) with
    | None => (failure "No data provided" 400, w)
    | Some data =>
        match blogs (db w) !! blog_id with
        | None => (failure "Blog not found" 404, w)
        | Some old =>
            let update_data :=
              copy_fields blog_fields data (dict_of [("updatedAt", VServerTimestamp)]) in
            (succeeded "Blog updated successfully",
             World (session w)
               (with_blogs (db w)
                  (<[blog_id := doc_update (commit_time req) update_data old]>
                     (blogs (db w)))))
        end
    end).

(** ** Recipes *)

Definition get_recipes : handler := fun req w =>
  listing "recipes" (now req) (List.filter published (map_to_list (recipes (db w)))) w.

Definition get_admin_recipes : handler :=
  login_required (Some "admin") (fun req w =>
    listing "recipes" (now req) (map_to_list (recipes (db w))) w).

Definition get_single_recipe (recipe_id : string) : handler := fun req w =>
  match recipes (db w) !! recipe_id with
  | None => (failure "Recipe not found" 404, w)
  | Some doc =>
      let recipe_data := <["id" := VStr recipe_id]> (clean_firestore_data (now req) doc) in
      let w' :=
        match s_uid (session w) with
        | Some uid =>
            let view_data := dict_of
              [("type", VStr "recipe");
               ("id", VStr recipe_id);
               ("title", get_or recipe_data "title" (VStr "Untitled Recipe"));
               ("description", get_or recipe_data "shortDesc" (VStr ""));
               ("image", get_or recipe_data "image" (VStr ""));
               ("url", VStr ("/recipe/" +:+ recipe_id))] in
            World (session w) (track_user_view_internal view_data uid (db w)).2
        | None => w
        end in
      (Jsonify [("success", JValue (VBool true)); ("recipe", JDoc recipe_data)] 200, w')
  end.

Definition create_recipe : handler :=
  login_required (Some "admin") (fun req w =>
    match given (json req) with
    | None => (failure "No data provided" 400, w)
    | Some data =>
        match List.find (missing data) required_fields with
        | Some field => (failure ("Missing required field: " +:+ field) 400, w)
        | None =>
            let ingredients := normalize newline (get_or data "ingredients" (VList [])) in
            let instructions := normalize newline (get_or data "instructions" (VList [])) in
            let tags := normalize comma (get_or data "tags" (VList [])) in
            let recipe_data := dict_of
              [("title", get data "title");
               ("shortDesc", get data "shortDesc");
               ("content", get data "content");
               ("status", get data "status");
               ("date", get_or data "date" (VStr (strftime_ymd (now req))));
               ("image", get_or data "image"
                  (VStr "https://placehold.co/600x400/3d3d3d/ffffff?text=Recipe+Image"));
               ("author", default (VStr "Admin") (s_email (session w)));
               ("authorId", of_session (s_uid (session w)));
               ("prepTime", get_or data "prepTime" (VStr ""));
               ("cookTime", get_or data "cookTime" (VStr ""));
               ("servings", get_or data "servings" (VStr ""));
               ("ingredients", ingredients);
               ("instructions", instructions);
               ("tags", tags);
               ("category", get_or data "category" (VStr ""));
               ("createdAt", VServerTimestamp);
               ("updatedAt", VServerTimestamp)] in
            let recipe_id := auto_id req in
            let st := with_recipes (db w)
                        (<[recipe_id := doc_set (commit_time req) recipe_data]>
                           (recipes (db w))) in
            let safe_data :=
              clean_firestore_data (now req) (<["id" := VStr recipe_id]> recipe_data) in
            (Jsonify [("success", JValue (VBool true)); ("recipe", JDoc safe_data);
                      ("message", JValue (VStr "Recipe created successfully"))] 200,
             World (session w) st)
        end
    end).

(** [if field in data: update_data[field] = normalized data[field]] *)
Definition copy_normalized (sep : ascii) (field : string) (data update_data : dict) : dict :=
  match data !! field with
  | Some v => <[field := normalize sep v]> update_data
  | None => update_data
  end.

Definition recipe_fields : list string := ["prepTime"; "cookTime"; "servings"; "category"].

Definition update_recipe (recipe_id : string) : handler :=
  login_required (Some "admin") (fun req w =>
    match given (json req) with
    | None => (failure "No data provided" 400, w)
    | Some data =>
        match recipes (db w) !! recipe_id with
        | None => (failure "Recipe not found" 404, w)
        | Some old =>
            let update_data := dict_of [("updatedAt", VServerTimestamp)] in
            let update_data := copy_fields blog_fields data update_data in
            let update_data := copy_normalized newline "ingredients" data update_data in
            let update_data := copy_normalized newline "instructions" data update_data in
            let update_data := copy_normalized comma "tags" data update_data in
            let update_data := copy_fields recipe_fields data update_data in
            (succeeded "Recipe updated successfully",
             World (session w)
               (with_recipes (db w)
                  (<[recipe_id := doc_update (commit_time req) update_data old]>
                     (recipes (db w)))))
        end
    end).

(** ** Groups *)

(** [collection.document(session.get("uid"))]: without an id the store
    picks one. *)
Definition member_ref (req : request) (w : world) : string :=
  default (auto_id req) (s_uid (session w)).

Definition join_group (group_id : string) : handler :=
  login_required None (fun req w =>
    match groups (db w) !! group_id with
    | None => (failure "Group not found" 404, w)
    | Some _ =>
        let member_id := member_ref req w in
        match members_of (db w) group_id !! member_id with
        | Some _ => (failure "Already a member" 400, w)
        | None =>
            let member := dict_of
              [("userId", of_session (s_uid (session w)));
               ("userEmail", default VNone (s_email (session w)));
               ("joinedAt", VServerTimestamp)] in
            (succeeded "Joined group successfully",
             World (session w)
               (with_members (db w)
                  (<[group_id := <[member_id := doc_set (commit_time req) member]>
                                   (members_of (db w) group_id)]> (members (db w)))))
        end
    end).

(** The member count that [get_group] reports: [len(list(members_ref.stream()))]. *)
Definition member_count (st : database) (group_id : string) : nat :=
  length (map_to_list (members_of st group_id)).

(** ** Properties of a stored list of views *)

(** A view as the callers of the tracker build it: it names its item. *)
Definition view_shaped (v : dict) : Prop :=
  is_Some (v !! "id") ∧ is_Some (v !! "type").


(** The ordinal, counted from 1, of the last call that recorded the item
    of [x]; 0 when no call did.  [recent] lists the calls, last call
    first. *)
Fixpoint last_recorded (recent : list dict) (x : dict) : nat :=
  match recent with
  | [] => 0%nat
  | v :: earlier =>
      if same_item v x then S (length earlier) else last_recorded earlier x
  end.

Definition recency (calls : list dict) (x : dict) : nat :=
  last_recorded (rev calls) x.





(** What one [record] call makes of the stored list. *)
Definition moved_to_front (view_data : dict) (l : list dict) : list dict :=
  let inserted :=
    view_data :: List.filter (fun v => negb (same_item v view_data)) l in
  if (50 <? length inserted)%nat then take 50 inserted else inserted.

(** A sequence of [record] calls for one user, one after the other, with
    the boolean each call returns. *)
Fixpoint record_all (calls : list dict) (uid : string) (st : database)
  : list bool * database :=
  match calls with
  | [] => ([], st)
  | v :: rest =>
      let '(ok, st1) := track_user_view_internal v uid st in
      let '(oks, st2) := record_all rest uid st1 in
      (ok :: oks, st2)
  end.

(** ** The authorization check, in the words of the specification *)

Inductive decision : Type :=
  | Allow
  | Unauthenticated
  | Forbidden.

(** Deny with [Unauthenticated] if no session exists; deny with
    [Forbidden] if a required role is set and does not match the session's
    role; otherwise allow. *)
Definition spec_authorization_check (required : option string) (s : session_state)
  : decision :=
  match s_uid s with
  | None => Unauthenticated
  | Some _ =>
      match required with
      | Some r => if bool_decide (s_role s = Some (VStr r)) then Allow else Forbidden
      | None => Allow
      end
  end.

(** What the gate answers for each decision. *)
Definition gate_answer (d : decision) (f : handler) : handler :=
  fun req w =>
    match d with
    | Allow => f req w
    | Unauthenticated => (Redirect "login", w)
    | Forbidden => (Plain "Unauthorized" 403, w)
    end.

(** A session of an administrator. *)
Definition admin_session (s : session_state) : Prop :=
  is_Some (s_uid s) ∧ s_role s = Some (VStr "admin").



(** What a recipe update stores for field [k] supplied as [v]. *)
Definition stored_as (k : string) (v : value) : value :=
  if bool_decide (k = "ingredients") || bool_decide (k = "instructions")
  then normalize newline v
  else if bool_decide (k = "tags") then normalize comma v
  else v.

(** A document that carries the timestamp of its creation, as the store
    keeps it for every item written by a create handler. *)
Definition stamped (d : dict) : Prop :=
  ∃ t : Z, d !! "createdAt" = Some (VTime t).

(** The answer of a listing handler. *)
Definition listing_of (name : string) (docs : list dict) : response :=
  Jsonify [("success", JValue (VBool true)); (name, JDocs docs)] 200.

(** The answer of a create handler. *)
Definition created (name : string) (safe_data : dict) (msg : string) : response :=
  Jsonify [("success", JValue (VBool true)); (name, JDoc safe_data);
           ("message", JValue (VStr msg))] 200.

(** The sort key of [x] is a string. *)
Definition text_key (key : dict → value) (x : dict) : Prop := ∃ s, key x = VStr s.

(** ** Inputs for the examples *)

(** A platform with one valid token, for user "ada". *)
Definition example_platform : Platform := {|
  verify_id_token := fun token =>
    if bool_decide (token = VStr "token-of-ada") then Returned "ada"
    else Raised (AuthError "invalid token");
  isoformat := fun t => "T" +:+ pretty t;
  strftime_ymd := fun t => "D" +:+ pretty t;
  server_timestamp_str := "Sentinel: server timestamp"
|}.

Definition empty_database : database := Database ∅ ∅ ∅ ∅ ∅.

Definition blog_b1 : dict :=
  list_to_map [("title", VStr "Stretching"); ("shortDesc", VStr "Ten minutes a day");
               ("content", VStr "Start with the neck."); ("status", VStr "published");
               ("author", VStr "coach@fit.example"); ("createdAt", VTime 100);
               ("updatedAt", VTime 100)].

(** A store with one user document, one blog and one group. *)
Definition example_database : database :=
  Database {["ada" := UserDoc (Some (VStr "admin")) (Some (VStr "ada@fit.example")) None]}
           {["b1" := blog_b1]} ∅
           {["g1" := list_to_map [("name", VStr "Runners")]]} ∅.

Definition ada_session : session_state :=
  Session (Some "ada") (Some (VStr "admin")) (Some (VStr "ada@fit.example")).

Definition example_world : world := World ada_session example_database.

(** The same user, logged in, without a user document. *)
Definition orphan_world : world := World ada_session empty_database.

Definition request_with (body : list (string * value)) : request :=
  Request (Some (list_to_map body)) 200 300 "n1".

Definition view_b1 (title : string) : dict :=
  list_to_map [("type", VStr "blog"); ("id", VStr "b1"); ("title", VStr title);
               ("url", VStr "/blog/b1")].

Definition view_r1 : dict :=
  list_to_map [("type", VStr "recipe"); ("id", VStr "r1"); ("title", VStr "Porridge");
               ("url", VStr "/recipe/r1")].


(** The view of blog number [n]. *)
Definition view_numbered (n : nat) : dict :=
  list_to_map [("type", VStr "blog"); ("id", VStr (pretty n));
               ("title", VStr ("Blog " +:+ pretty n)); ("url", VStr ("/blog/" +:+ pretty n))].

(** ** The remaining handlers *)

(** The texts of two exceptions that reach a handler's boundary: the
    store's [NotFound] for an [update] of a document that does not exist,
    and the [AttributeError] of [.strip()] on a value that is no string. *)
Class Faults : Type := {
  not_found_str : string → string;
  attribute_error_str : value → string
}.

Context `{Faults}.

(** [user_ref.update({"recent_views": []})], without a look at the
    document first. *)
Definition clear_recent_views : handler :=
  login_required None (fun req w =>
    match logged_uid (session w) with
    | None => (failure "User not logged in" 401, w)
    | Some uid =>
        match users (db w) !! uid with
        | Some user_data =>
            (succeeded "Recent views cleared successfully",
             World (session w)
               (with_users (db w)
                  (<[uid := UserDoc (role user_data) (email user_data) (Some [])]>
                     (users (db w)))))
        | None => (failure (not_found_str uid) 500, w)
        end
    end).

Definition delete_blog (blog_id : string) : handler :=
  login_required (Some "admin") (fun req w =>
    match blogs (db w) !! blog_id with
    | None => (failure "Blog not found" 404, w)
    | Some _ =>
        (succeeded "Blog deleted successfully",
         World (session w) (with_blogs (db w) (delete blog_id (blogs (db w)))))
    end).

Definition delete_recipe (recipe_id : string) : handler :=
  login_required (Some "admin") (fun req w =>
    match recipes (db w) !! recipe_id with
    | None => (failure "Recipe not found" 404, w)
    | Some _ =>
        (succeeded "Recipe deleted successfully",
         World (session w) (with_recipes (db w) (delete recipe_id (recipes (db w)))))
    end).

Definition with_groups (st : database) (gs : gmap string dict) : database :=
  Database (users st) (blogs st) (recipes st) gs (members st).

Definition group_fields : list string := ["name"; "description"; "category"].

Definition create_group : handler :=
  login_required None (fun req w =>
    match given (json req) with
    | None => (failure "No data provided" 400, w)
    | Some data =>
        match List.find (missing data) group_fields with
        | Some field => (failure ("Missing required field: " +:+ field) 400, w)
        | None =>
            let group_id := auto_id req in
            let group_data := dict_of
              [("name", get data "name");
               ("description", get data "description");
               ("category", get data "category");
               ("createdBy", of_session (s_uid (session w)));
               ("createdByEmail", default VNone (s_email (session w)));
               ("createdAt", VServerTimestamp);
               ("image", get_or data "image"
                  (VStr "https://placehold.co/400x300/3b82f6/ffffff?text=Fitness+Group"))] in
            let st := with_groups (db w)
                        (<[group_id := doc_set (commit_time req) group_data]>
                           (groups (db w))) in
            let member := dict_of
              [("userId", of_session (s_uid (session w)));
               ("userEmail", default VNone (s_email (session w)));
               ("joinedAt", VServerTimestamp)] in
            let st := with_members st
                        (<[group_id := <[member_ref req w := doc_set (commit_time req) member]>
                                         (members_of st group_id)]> (members st)) in
            (Jsonify [("id", JValue (VStr group_id)); ("success", JValue (VBool true))] 201,
             World (session w) st)
        end
    end).

(** The [messages] sub-collections, keyed by group id and then by message
    id, beside the world. *)
Record forum : Type := Forum {
  site : world;
  messages : gmap string (gmap string dict)
}.

Definition messages_of (f : forum) (group_id : string) : gmap string dict :=
  default ∅ (messages f !! group_id).

(** The decorator on a view function whose state is more than the world. *)
Definition login_required_on {S : Type} (session_of : S → session_state)
    (required : option string) (f : request → S → response * S)
  : request → S → response * S :=
  fun req s =>
    match s_uid (session_of s) with
    | None => (Redirect "login", s)
    | Some _ =>
        match required with
        | Some r =>
            if truthy (VStr r) && negb (py_eq (default VNone (s_role (session_of s))) (VStr r))
            then (Plain "Unauthorized" 403, s)
            else f req s
        | None => f req s
        end
    end.

(** [not data or "content" not in data or not data["content"].strip()];
    the outcome is the stripped content, [None] when the message is
    refused, or the fault of [.strip()]. *)
Definition message_content (data : option dict) : string + option string :=
  match given data with
  | None => inr None
  | Some d =>
      match d !! "content" with
      | None => inr None
      | Some (VStr s) => if String.eqb (strip s) "" then inr None else inr (Some (strip s))
      | Some v => inl (attribute_error_str v)
      end
  end.

Definition send_message (group_id : string) : request → forum → response * forum :=
  login_required_on (fun f => session (site f)) None (fun req f =>
    let w := site f in
    match members_of (db w) group_id !! member_ref req w with
    | None => (failure "Not a member of this group" 403, f)
    | Some _ =>
        match message_content (json req) with
        | inl text => (failure text 500, f)
        | inr None => (failure "Message content required" 400, f)
        | inr (Some content) =>
            let message := dict_of
              [("user", default VNone (s_email (session w)));
               ("userId", of_session (s_uid (session w)));
               ("content", VStr content);
               ("timestamp", VServerTimestamp);
               ("avatar", VStr "https://placehold.co/32x32/3b82f6/ffffff?text=U")] in
            (Jsonify [("success", JValue (VBool true));
                      ("message", JValue (VStr "Message sent"))] 201,
             Forum w (<[group_id := <[auto_id req := doc_set (commit_time req) message]>
                                      (messages_of f group_id)]> (messages f)))
        end
    end).

(** ** The routes *)

(** The view functions of the application that act on the session and on
    the collections of [database]. *)
Inductive route : Type :=
  | SessionLogin
  | Logout
  | TrackView
  | RecentViews
  | RemoveRecentView
  | ClearRecentViews
  | Blogs
  | SingleBlog (blog_id : string)
  | AdminBlogs
  | CreateBlog
  | UpdateBlog (blog_id : string)
  | DeleteBlog (blog_id : string)
  | Recipes
  | SingleRecipe (recipe_id : string)
  | AdminRecipes
  | CreateRecipe
  | UpdateRecipe (recipe_id : string)
  | DeleteRecipe (recipe_id : string)
  | CreateGroup
  | JoinGroup (group_id : string).

#[local] Instance route_eq_dec : EqDecision route.
Proof. solve_decision. Defined.

Definition dispatch (r : route) : handler :=
  match r with
  | SessionLogin => session_login
  | Logout => logout
  | TrackView => track_user_view
  | RecentViews => get_user_recent_views
  | RemoveRecentView => remove_recent_view
  | ClearRecentViews => clear_recent_views
  | Blogs => get_blogs
  | SingleBlog blog_id => get_single_blog blog_id
  | AdminBlogs => get_admin_blogs
  | CreateBlog => create_blog
  | UpdateBlog blog_id => update_blog blog_id
  | DeleteBlog blog_id => delete_blog blog_id
  | Recipes => get_recipes
  | SingleRecipe recipe_id => get_single_recipe recipe_id
  | AdminRecipes => get_admin_recipes
  | CreateRecipe => create_recipe
  | UpdateRecipe recipe_id => update_recipe recipe_id
  | DeleteRecipe recipe_id => delete_recipe recipe_id
  | CreateGroup => create_group
  | JoinGroup group_id => join_group group_id
  end.

(** A sequence of requests, served one after the other. *)
Fixpoint serve (calls : list (route * request)) (w : world) : world :=
  match calls with
  | [] => w
  | (r, req) :: rest => serve rest (dispatch r req w).2
  end.


(** What one request can do to the world. *)
Inductive effect (w : world) : world → Prop :=
  | effect_none : effect w w
  | effect_login (token : value) (uid : string) (doc : user_doc) :
      verify_id_token token = Returned uid →
      users (db w) !! uid = Some doc →
      effect w (World (Session (Some uid)
                                (Some (default (VStr "user") (role doc)))
                                (Some (default VNone (email doc))))
                      (db w))
  | effect_logout : effect w (World no_session (db w))
  | effect_track (uid : string) (view_data : dict) :
      s_uid (session w) = Some uid → view_shaped view_data →
      effect w (World (session w) (track_user_view_internal view_data uid (db w)).2)
  | effect_views (uid : string) (doc : user_doc) (views : list dict) :
      s_uid (session w) = Some uid →
      users (db w) !! uid = Some doc →
      views = [] ∨ (∃ keep, views = List.filter keep (default [] (recent_views doc))) →
      effect w (World (session w)
                  (with_users (db w)
                     (<[uid := UserDoc (role doc) (email doc) (Some views)]>
                        (users (db w)))))
  | effect_blogs (bs : gmap string dict) :
      admin_session (session w) →
      effect w (World (session w) (with_blogs (db w) bs))
  | effect_recipes (rs : gmap string dict) :
      admin_session (session w) →
      effect w (World (session w) (with_recipes (db w) rs))
  | effect_groups (gs : gmap string dict) (ms : gmap string (gmap string dict)) :
      is_Some (s_uid (session w)) →
      effect w (World (session w) (with_members (with_groups (db w) gs) ms)).

(** A session stands for a user that the identity service has verified
    and that has a document, and carries the role and the email of that
    document. *)
Definition session_sound (w : world) : Prop :=
  ∀ uid : string, s_uid (session w) = Some uid →
    (∃ token, verify_id_token token = Returned uid)
    ∧ ∃ doc, users (db w) !! uid = Some doc
        ∧ s_role (session w) = Some (default (VStr "user") (role doc))
        ∧ s_email (session w) = Some (default VNone (email doc)).

(** The test of [remove_recent_view] on a stored view. *)
Definition names_item (view_id view_type : value) (view : dict) : bool :=
  py_eq (get view "id") view_id && py_eq (get view "type") view_type.

(** The answer of [get_user_recent_views]. *)
Definition recent_views_of (views : list dict) : response :=
  Jsonify [("success", JValue (VBool true)); ("recent_views", JDocs views)] 200.




(** A value that [jsonify] can print: no timestamp object and no
    sentinel. *)
Definition json_safe (v : value) : Prop :=
  (∀ t, v ≠ VTime t) ∧ v ≠ VServerTimestamp.



(** ** More inputs for the examples *)

Definition example_faults : Faults := {|
  not_found_str := fun uid => "404 No document to update: users/" +:+ uid;
  attribute_error_str := fun _ => "object has no attribute 'strip'"
|}.

(** User "ada" with two recent views. *)
Definition viewer_doc : user_doc :=
  UserDoc (Some (VStr "admin")) (Some (VStr "ada@fit.example"))
          (Some [view_b1 "Stretching"; view_r1]).

Definition viewer_world : world :=
  World ada_session (Database {["ada" := viewer_doc]} {["b1" := blog_b1]} ∅ ∅ ∅).

(** A blog that is a draft, and a caller without a session. *)
Definition blog_d1 : dict :=
  list_to_map [("title", VStr "Sleep"); ("shortDesc", VStr "Notes");
               ("content", VStr "Unfinished."); ("status", VStr "draft");
               ("createdAt", VTime 150)].

Definition visitor_world : world :=
  World no_session (Database ∅ {["d1" := blog_d1]} ∅ ∅ ∅).

(** A user who is no administrator. *)
Definition bob_world : world :=
  World (Session (Some "bob") (Some (VStr "user")) (Some (VStr "bob@fit.example")))
        example_database.

Definition login_body : list (string * value) := [("idToken", VStr "token-of-ada")].

Definition blog_body : list (string * value) :=
  [("title", VStr "Cold plunge"); ("shortDesc", VStr "Why and how");
   ("content", VStr "Breathe first."); ("status", VStr "published");
   ("author", VStr "mallory@fit.example")].



Definition remove_body : list (string * value) :=
  [("viewId", VStr "b1"); ("viewType", VStr "blog")].


(** A forum on the example world, without messages. *)
Definition example_forum : forum := Forum example_world ∅.

(** * Theorems *)

(** ** Python equality *)

Lemma py_eq_true (a b : value) : py_eq a b = true ↔ py_norm a = py_norm b.
Proof. unfold py_eq. apply bool_decide_eq_true. Qed.

Lemma py_eq_refl (a : value) : py_eq a a = true.
Proof. by apply py_eq_true. Qed.

Lemma py_eq_sym (a b : value) : py_eq a b = py_eq b a.
Proof. unfold py_eq. apply bool_decide_ext. split; congruence. Qed.

Lemma py_eq_trans (a b c : value) :
  py_eq a b = true → py_eq b c = true → py_eq a c = true.
Proof. rewrite !py_eq_true. congruence. Qed.

Lemma py_eq_str (a : value) (s : string) : py_eq a (VStr s) = true ↔ a = VStr s.
Proof.
  rewrite py_eq_true. destruct a; simpl; split; intros E; try done; congruence.
Qed.

Lemma same_item_refl (a : dict) : same_item a a = true.
Proof. unfold same_item. by rewrite !py_eq_refl. Qed.

Lemma same_item_sym (a b : dict) : same_item a b = same_item b a.
Proof. unfold same_item. by rewrite (py_eq_sym (get a "id")), (py_eq_sym (get a "type")). Qed.

Lemma same_item_trans (a b c : dict) :
  same_item a b = true → same_item b c = true → same_item a c = true.
Proof.
  unfold same_item. rewrite !andb_true_iff.
  intros [? ?] [? ?]. split; eapply py_eq_trans; eauto.
Qed.

(** Two views of one item are the same item as exactly the same entries. *)
Lemma same_item_congr (a b c : dict) :
  same_item a b = true → same_item a c = same_item b c.
Proof.
  intros Hab. destruct (same_item b c) eqn:Hbc.
  - by eapply same_item_trans.
  - destruct (same_item a c) eqn:Hac; [|done].
    rewrite same_item_sym in Hab.
    by rewrite (same_item_trans _ _ _ Hab Hac) in Hbc.
Qed.

(** ** Lists whose entries are related pairwise, earlier to later *)





(** ** The tracker on the stored list *)


Lemma keep_view_shaped (view_data v : dict) :
  view_shaped view_data →
  keep_view view_data v = Some (negb (same_item v view_data)).
Proof.
  intros [[i Hi] [t Ht]]. unfold keep_view, same_item, get.
  rewrite Hi, Ht. simpl. by destruct (py_eq _ i).
Qed.

Lemma filter_views_shaped (view_data : dict) (l : list dict) :
  view_shaped view_data →
  filter_views view_data l
  = Some (List.filter (fun v => negb (same_item v view_data)) l).
Proof.
  intros Hv. induction l as [|v l IH]; simpl; [done|].
  rewrite (keep_view_shaped _ _ Hv), IH. simpl.
  by destruct (same_item v view_data).
Qed.

Lemma printable_shaped (view_data : dict) :
  view_shaped view_data → printable view_data = true.
Proof.
  intros [Hi Ht]. unfold printable.
  by rewrite !bool_decide_eq_true_2.
Qed.

Lemma moved_to_front_nil (view_data : dict) : moved_to_front view_data [] = [view_data].
Proof. reflexivity. Qed.

(** A call with a view that names its item succeeds and rewrites the
    user's list; the lists of the other users stay as they are. *)
Lemma track_user_view_internal_views (view_data : dict) (uid : string) (st : database) :
  view_shaped view_data →
  (track_user_view_internal view_data uid st).1 = true
  ∧ views_of (track_user_view_internal view_data uid st).2 uid
    = moved_to_front view_data (views_of st uid)
  ∧ ∀ other, other ≠ uid →
      users (track_user_view_internal view_data uid st).2 !! other = users st !! other.
Proof.
  intros Hv. unfold track_user_view_internal, views_of.
  destruct (users st !! uid) as [doc|] eqn:Hdoc.
  - rewrite (filter_views_shaped _ _ Hv). simpl.
    rewrite lookup_insert_eq. simpl.
    split; [by apply printable_shaped|]. split; [done|].
    intros other Hne. by rewrite lookup_insert_ne.
  - simpl. rewrite lookup_insert_eq. simpl.
    split; [by apply printable_shaped|]. split; [done|].
    intros other Hne. by rewrite lookup_insert_ne.
Qed.


Lemma moved_to_front_take (view_data : dict) (l : list dict) :
  moved_to_front view_data l
  = take 50 (view_data :: List.filter (fun v => negb (same_item v view_data)) l).
Proof.
  unfold moved_to_front.
  destruct (50 <? _)%nat eqn:Hlen; [done|].
  apply Nat.ltb_ge in Hlen. by rewrite take_ge.
Qed.

Lemma moved_to_front_head (view_data : dict) (l : list dict) :
  moved_to_front view_data l !! 0%nat = Some view_data.
Proof. by rewrite moved_to_front_take. Qed.





(** ** Recency *)





Lemma recency_nil (x : dict) : recency [] x = 0%nat.
Proof. reflexivity. Qed.







(** ** The gate *)

(** C3.  For a required role that is absent or a non-empty string, the
    decorator answers as the authorization check decides: without a
    session the login redirect, with a session whose role is not the
    required one the 403 answer, and in both cases whatever the decorated
    function is; otherwise the decorated function runs.  The role test is
    equality: a session of role "admin" is refused where role "user" is
    required. *)
Theorem login_required_decides (required : option string) (f : handler)
    (req : request) (w : world) :
  required ≠ Some "" →
  login_required required f req w
  = gate_answer (spec_authorization_check required (session w)) f req w
  ∧ ∀ (uid : string) (mail : option value) (st : database),
      login_required (Some "user") f req
        (World (Session (Some uid) (Some (VStr "admin")) mail) st)
      = (Plain "Unauthorized" 403,
         World (Session (Some uid) (Some (VStr "admin")) mail) st).
Proof.
  intros Hrole. split; [|done].
  unfold login_required, spec_authorization_check, gate_answer.
  destruct (s_uid (session w)); [|done].
  destruct required as [r|]; [|done].
  assert (truthy (VStr r) = true) as ->.
  { simpl. apply negb_true_iff, String.eqb_neq. congruence. }
  simpl. destruct (py_eq _ (VStr r)) eqn:Heq.
  - apply py_eq_str in Heq. rewrite bool_decide_eq_true_2; [done|].
    destruct (s_role (session w)); simpl in Heq; congruence.
  - rewrite bool_decide_eq_false_2; [done|].
    intros E. rewrite E in Heq. simpl in Heq. by rewrite py_eq_refl in Heq.
Qed.

Lemma login_required_admin (f : handler) (req : request) (w : world) :
  admin_session (session w) → login_required (Some "admin") f req w = f req w.
Proof. intros [[uid Huid] Hrole]. unfold login_required. by rewrite Huid, Hrole. Qed.

Lemma login_required_any (f : handler) (req : request) (w : world) :
  is_Some (s_uid (session w)) → login_required None f req w = f req w.
Proof. intros [uid Huid]. unfold login_required. by rewrite Huid. Qed.

(** A refusal leaves the world as it is. *)
Lemma login_required_cases (required : option string) (f : handler)
    (req : request) (w : world) :
  login_required required f req w = f req w
  ∨ (login_required required f req w).2 = w.
Proof.
  unfold login_required. destruct (s_uid (session w)); [|by right].
  destruct required; [|by left]. destruct (_ && _); [by right|by left].
Qed.

(** ** Login *)

(** C4.  A login whose token the identity service verifies as [uid]:
    without a user document for [uid] the answer is the error "User not
    found" and neither the session nor the store changes; with a document
    the login succeeds, the session holds [uid], the document's role
    ("user" when the document has none) and the document's email, and the
    store is unchanged. *)
Theorem session_login_verified (req : request) (w : world) (data : dict) (uid : string) :
  given (json req) = Some data →
  truthy (get data "idToken") = true →
  verify_id_token (get data "idToken") = Returned uid →
  (users (db w) !! uid = None →
     session_login req w = (Jsonify [("error", JValue (VStr "User not found"))] 400, w))
  ∧ (∀ doc : user_doc, users (db w) !! uid = Some doc →
       (session_login req w).1 = Jsonify [("success", JValue (VBool true))] 200
       ∧ session (session_login req w).2
         = Session (Some uid)
                   (Some (default (VStr "user") (role doc)))
                   (Some (default VNone (email doc)))
       ∧ db (session_login req w).2 = db w).
Proof.
  intros Hdata Htoken Hverify. unfold given in Hdata.
  destruct (json req) as [d|] eqn:Hjson; [|done].
  destruct (bool_decide (d = ∅)) eqn:Hempty; [done|].
  injection Hdata as ->.
  unfold session_login. rewrite Hjson, Hempty, Htoken, Hverify. simpl.
  split.
  - by intros ->.
  - by intros doc ->.
Qed.

(** ** Blog creation *)

Lemma find_some_of {A : Type} (p : A → bool) (l : list A) (x : A) :
  x ∈ l → p x = true → ∃ y, List.find p l = Some y ∧ y ∈ l.
Proof.
  intros Hx Hp. destruct (List.find p l) as [y|] eqn:Hfind.
  - exists y. split; [done|]. apply List.find_some in Hfind as [Hy _].
    by apply list_elem_of_In.
  - apply list_elem_of_In in Hx.
    pose proof (List.find_none _ _ Hfind x Hx). congruence.
Qed.

(** C6.  A blog-create request in which one of title, shortDesc, content
    and status is absent or empty (any value that Python takes for false):
    the world after the request is the world before it, so nothing is
    written, and for an administrator the answer is a 400 naming the
    missing data. *)
Theorem create_blog_validation (req : request) (w : world) (field : string) :
  field ∈ required_fields →
  default ∅ (json req) !! field = None
  ∨ (∃ v, default ∅ (json req) !! field = Some v ∧ truthy v = false) →
  (create_blog req w).2 = w
  ∧ (admin_session (session w) →
     ∃ msg, (create_blog req w).1 = failure msg 400
       ∧ (msg = "No data provided"
          ∨ ∃ f, f ∈ required_fields ∧ msg = "Missing required field: " +:+ f)).
Proof.
  intros Hfield Hmissing.
  assert (Hfind : ∀ d, given (json req) = Some d →
            ∃ f, List.find (missing d) required_fields = Some f ∧ f ∈ required_fields).
  { intros d Hd. apply (find_some_of _ _ field Hfield).
    unfold given in Hd. destruct (json req) as [d'|]; [|done].
    destruct (bool_decide (d' = ∅)); [done|]. injection Hd as ->.
    simpl in Hmissing. unfold missing.
    destruct Hmissing as [->|(v & -> & ->)]; done. }
  unfold create_blog.
  match goal with |- context [login_required _ ?f] => set (body := f) end.
  assert (Hbody : ∃ msg, body req w = (failure msg 400, w)
    ∧ (msg = "No data provided"
       ∨ ∃ f, f ∈ required_fields ∧ msg = "Missing required field: " +:+ f)).
  { subst body. cbv beta. destruct (given (json req)) as [d|]; [|eauto].
    destruct (Hfind d eq_refl) as (f & -> & Hf). eauto 6. }
  destruct Hbody as (msg & Hbody & Hmsg). split.
  - destruct (login_required_cases (Some "admin") body req w) as [E|E]; [|done].
    by rewrite E, Hbody.
  - intros Hadmin. exists msg. split; [|done].
    by rewrite (login_required_admin _ _ _ Hadmin), Hbody.
Qed.

(** ** Joining a group *)

Lemma members_of_joined (st : database) (g : string) (m : gmap string dict) :
  members_of (with_members st (<[g := m]> (members st))) g = m
  ∧ ∀ g', g' ≠ g →
      members_of (with_members st (<[g := m]> (members st))) g' = members_of st g'.
Proof.
  unfold members_of, with_members. simpl. split.
  - by rewrite lookup_insert_eq.
  - intros g' Hne. by rewrite lookup_insert_ne.
Qed.

(** C7.  A logged-in user [uid] joins group [g]: without the group the
    answer is "Group not found" and nothing changes; with a member document
    of [uid] in place the answer is "Already a member" and nothing changes;
    otherwise exactly one member document, keyed by [uid], is added to the
    group, the other groups keep their members, and a second request by
    the same user is answered "Already a member" and leaves the world, and
    so the member count, as the first request left it. *)
Theorem join_group_membership (g : string) (req : request) (w : world) (uid : string) :
  s_uid (session w) = Some uid →
  (groups (db w) !! g = None →
     join_group g req w = (failure "Group not found" 404, w))
  ∧ (is_Some (groups (db w) !! g) → is_Some (members_of (db w) g !! uid) →
     join_group g req w = (failure "Already a member" 400, w))
  ∧ (is_Some (groups (db w) !! g) → members_of (db w) g !! uid = None →
     (join_group g req w).1 = succeeded "Joined group successfully"
     ∧ (∃ member : dict,
          members_of (db (join_group g req w).2) g
          = <[uid := member]> (members_of (db w) g)
          ∧ member !! "userId" = Some (VStr uid))
     ∧ member_count (db (join_group g req w).2) g = S (member_count (db w) g)
     ∧ (∀ g', g' ≠ g →
          members_of (db (join_group g req w).2) g' = members_of (db w) g')
     ∧ ∀ again : request,
         join_group g again (join_group g req w).2
         = (failure "Already a member" 400, (join_group g req w).2)).
Proof.
  intros Huid.
  assert (Hgate : ∀ (f : handler) (r : request) (w' : world),
            s_uid (session w') = Some uid → login_required None f r w' = f r w').
  { intros f r w' E. apply login_required_any. by rewrite E. }
  unfold join_group. split; [|split].
  - intros Hg. rewrite Hgate by done. by rewrite Hg.
  - intros [grp Hg] [m Hm]. rewrite Hgate by done.
    unfold member_ref. rewrite Hg, Huid. simpl. by rewrite Hm.
  - intros [grp Hg] Hm. rewrite Hgate by done.
    unfold member_ref. rewrite Hg, Huid. simpl. rewrite Hm.
    cbn [fst snd db session].
    match goal with |- context [with_members _ (<[g := ?m]> _)] =>
      destruct (members_of_joined (db w) g m) as [Hsame Hother] end.
    split; [done|]. split; [|split; [|split]].
    + eexists. split; [apply Hsame|]. unfold doc_set, dict_of. simpl.
      rewrite lookup_fmap, lookup_insert_eq. done.
    + unfold member_count. rewrite Hsame, !length_map_to_list.
      by apply map_size_insert_None.
    + done.
    + intros again. rewrite Hgate by done.
      unfold member_ref. cbn [db session groups with_members].
      rewrite Hg. cbn [session s_uid]. rewrite Huid. simpl default.
      rewrite Hsame, lookup_insert_eq. done.
Qed.

(** ** A user without a document *)

(** C10.  A logged-in user without a user document: the list of recent
    views is answered with success and an empty list, and a request to
    remove a view, with its viewId and viewType, is answered 404 "User not
    found"; neither request changes the world. *)
Theorem missing_user_document (list_req remove_req : request) (w : world)
    (uid : string) (data : dict) :
  s_uid (session w) = Some uid → uid ≠ "" →
  users (db w) !! uid = None →
  given (json remove_req) = Some data →
  truthy (get data "viewId") = true → truthy (get data "viewType") = true →
  get_user_recent_views list_req w
  = (Jsonify [("success", JValue (VBool true)); ("recent_views", JDocs [])] 200, w)
  ∧ remove_recent_view remove_req w = (failure "User not found" 404, w).
Proof.
  intros Huid Hne Hnone Hdata Hid Hty.
  assert (Hlogged : logged_uid (session w) = Some uid).
  { unfold logged_uid. rewrite Huid.
    by apply String.eqb_neq in Hne as ->. }
  unfold get_user_recent_views, remove_recent_view.
  rewrite !login_required_any by (by rewrite Huid).
  by rewrite Hlogged, Hnone, Hdata, Hid, Hty.
Qed.

(** ** Who stamps a recorded view *)

(** The view that the blog handler records has no [viewedAt] field. *)
Lemma get_single_blog_view (blog_id : string) (req : request) (w : world)
    (uid : string) (doc : dict) :
  s_uid (session w) = Some uid →
  blogs (db w) !! blog_id = Some doc →
  ∃ v, views_of (db (get_single_blog blog_id req w).2) uid !! 0%nat = Some v
       ∧ v !! "type" = Some (VStr "blog")
       ∧ v !! "id" = Some (VStr blog_id)
       ∧ v !! "viewedAt" = None.
Proof.
  intros Huid Hdoc. unfold get_single_blog. rewrite Hdoc, Huid.
  cbn [snd db].
  match goal with |- context [track_user_view_internal ?v uid (db w)] =>
    set (view_data := v) end.
  assert (Hshaped : view_shaped view_data) by (split; by eexists).
  destruct (track_user_view_internal_views view_data uid (db w) Hshaped)
    as (_ & Hviews & _).
  exists view_data. rewrite Hviews, moved_to_front_head. done.
Qed.

(** The same holds of the recipe handler. *)
Lemma get_single_recipe_view (recipe_id : string) (req : request) (w : world)
    (uid : string) (doc : dict) :
  s_uid (session w) = Some uid →
  recipes (db w) !! recipe_id = Some doc →
  ∃ v, views_of (db (get_single_recipe recipe_id req w).2) uid !! 0%nat = Some v
       ∧ v !! "type" = Some (VStr "recipe")
       ∧ v !! "id" = Some (VStr recipe_id)
       ∧ v !! "viewedAt" = None.
Proof.
  intros Huid Hdoc. unfold get_single_recipe. rewrite Hdoc, Huid.
  cbn [snd db].
  match goal with |- context [track_user_view_internal ?v uid (db w)] =>
    set (view_data := v) end.
  assert (Hshaped : view_shaped view_data) by (split; by eexists).
  destruct (track_user_view_internal_views view_data uid (db w) Hshaped)
    as (_ & Hviews & _).
  exists view_data. rewrite Hviews, moved_to_front_head. done.
Qed.

(** The track-view endpoint stamps the view with the sentinel of the
    store, whatever [viewedAt] the client sends. *)
Lemma track_user_view_stamps (req : request) (w : world) (uid : string) (data : dict) :
  s_uid (session w) = Some uid → uid ≠ "" →
  given (json req) = Some data →
  (∀ field, field ∈ ["type"; "id"; "title"; "url"] → is_Some (data !! field)) →
  (track_user_view req w).1 = succeeded "View tracked successfully"
  ∧ ∃ v, views_of (db (track_user_view req w).2) uid !! 0%nat = Some v
         ∧ v !! "viewedAt" = Some VServerTimestamp.
Proof.
  intros Huid Hne Hdata Hfields.
  assert (Hlogged : logged_uid (session w) = Some uid).
  { unfold logged_uid. rewrite Huid. by apply String.eqb_neq in Hne as ->. }
  unfold track_user_view. rewrite login_required_any by (by rewrite Huid).
  rewrite Hlogged, Hdata.
  assert (List.find (fun field => bool_decide (data !! field = None))
            ["type"; "id"; "title"; "url"] = None) as ->.
  { destruct (List.find _ _) as [f|] eqn:Hfind; [|done].
    apply List.find_some in Hfind as [Hin Hnone].
    apply list_elem_of_In, Hfields in Hin as [v Hv].
    apply bool_decide_eq_true in Hnone. congruence. }
  match goal with |- context [track_user_view_internal ?v uid (db w)] =>
    set (view_data := v) end.
  assert (Hshaped : view_shaped view_data) by (split; by eexists).
  destruct (track_user_view_internal_views view_data uid (db w) Hshaped)
    as (Hok & Hviews & _).
  destruct (track_user_view_internal view_data uid (db w)) as [ok st].
  simpl in Hok, Hviews. subst ok. cbn [fst snd db]. split; [done|].
  exists view_data. rewrite Hviews, moved_to_front_head. done.
Qed.

(** ** Updates *)







(** Membership of a literal in a list of literals is decided by
    evaluation. *)
Lemma is_listed (k : string) (l : list string) :
  existsb (String.eqb k) l = true → k ∈ l.
Proof.
  intros Hex. apply existsb_exists in Hex as (x & Hx & Heq).
  apply String.eqb_eq in Heq as ->. by apply list_elem_of_In.
Qed.








(** ** [str.split] and [str.strip] *)

#[local] Arguments String.append !_ _ / : simpl nomatch.

Lemma split_nonempty (sep : ascii) (s : string) : split sep s ≠ [].
Proof.
  destruct s as [|c s]; simpl; [done|].
  destruct (Ascii.eqb c sep); [done|]. by destruct (split sep s).
Qed.

(** Joining the pieces with the separator gives the string back. *)
Lemma split_join (sep : ascii) (s : string) :
  String.concat (String sep EmptyString) (split sep s) = s.
Proof.
  induction s as [|c s IH]; simpl; [done|].
  destruct (Ascii.eqb c sep) eqn:Hc.
  - apply Ascii.eqb_eq in Hc as ->.
    pose proof (split_nonempty sep s).
    destruct (split sep s) as [|w ws]; [done|]. simpl in *. by rewrite IH.
  - pose proof (split_nonempty sep s).
    destruct (split sep s) as [|w ws]; [done|].
    destruct ws; simpl in *; by rewrite <- IH.
Qed.

(** No piece holds the separator. *)
Lemma split_pieces (sep : ascii) (s : string) :
  Forall (fun piece => sep ∉ list_ascii_of_string piece) (split sep s).
Proof.
  induction s as [|c s IH]; simpl.
  - constructor; [apply not_elem_of_nil|constructor].
  - destruct (Ascii.eqb c sep) eqn:Hc.
    + constructor; [apply not_elem_of_nil|done].
    + apply Ascii.eqb_neq in Hc.
      destruct (split sep s) as [|w ws]; simpl.
      * constructor; [|constructor]. simpl. rewrite not_elem_of_cons.
        split; [done|apply not_elem_of_nil].
      * apply Forall_cons in IH as [Hw Hws]. constructor; [|done].
        simpl. rewrite not_elem_of_cons. split; [done|done].
Qed.

(** [lstrip] removes a prefix of white space and stops at the first other
    character. *)
Lemma lstrip_prefix (s : string) : ∃ pre, s = pre +:+ lstrip s ∧ blank pre.
Proof.
  induction s as [|c s (pre & Hs & Hpre)]; simpl.
  - exists EmptyString. split; [done|constructor].
  - destruct (isspace c) eqn:Hc.
    + exists (String c pre). split; [|by constructor].
      change (String c s = String c (pre +:+ lstrip s)). by f_equal.
    + exists EmptyString. split; [done|constructor].
Qed.

Lemma lstrip_head (s : string) (c : ascii) (rest : string) :
  lstrip s = String c rest → isspace c = false.
Proof.
  induction s as [|a s IH]; simpl; [done|].
  destruct (isspace a) eqn:Ha; [done|]. by intros [= <- <-].
Qed.

(** [rstrip] removes a suffix of white space and nothing else. *)
Lemma rstrip_suffix (s : string) : ∃ suf, s = rstrip s +:+ suf ∧ blank suf.
Proof.
  induction s as [|c s (suf & Hs & Hsuf)]; simpl.
  - exists EmptyString. split; [done|constructor].
  - destruct (rstrip s) as [|k kept] eqn:Hk.
    + simpl in Hs. subst suf. destruct (isspace c) eqn:Hc.
      * exists (String c s). split; [done|by constructor].
      * exists s. split; [done|done].
    + exists suf. split; [|done].
      change (String c s = String c (String k kept +:+ suf)). by f_equal.
Qed.

Lemma rstrip_blank (s : string) : rstrip s = EmptyString → blank s.
Proof.
  induction s as [|c s IH]; simpl; [constructor|].
  destruct (rstrip s) eqn:Hk; [|done].
  destruct (isspace c) eqn:Hc; [|done]. intros _.
  unfold blank. simpl. constructor; [done|by apply IH].
Qed.

(** What [rstrip] keeps does not end in white space. *)
Lemma rstrip_last (s init : string) (c : ascii) :
  rstrip s = init +:+ String c EmptyString → isspace c = false.
Proof.
  revert init. induction s as [|a s IH]; intros init; simpl.
  - by destruct init.
  - destruct (rstrip s) as [|k kept] eqn:Hk.
    + destruct (isspace a) eqn:Ha; [by destruct init|].
      destruct init as [|i init]; simpl; [by intros [= <-]|].
      intros [= _ Hrest]. by destruct init.
    + destruct init as [|i init]; simpl; [done|].
      intros [= _ Hrest]. by apply (IH init).
Qed.

(** [strip] takes white space off both ends. *)
Lemma strip_both (s : string) :
  ∃ pre suf, s = pre +:+ strip s +:+ suf ∧ blank pre ∧ blank suf.
Proof.
  destruct (lstrip_prefix s) as (pre & Hs & Hpre).
  destruct (rstrip_suffix (lstrip s)) as (suf & Hl & Hsuf).
  exists pre, suf. unfold strip. by rewrite <- Hl.
Qed.

(** The pieces that the recipe handlers keep are the non-empty stripped
    pieces of the split, in order. *)
Lemma split_strip_pieces (sep : ascii) (s : string) (piece : string) :
  piece ∈ split_strip sep s
  ↔ piece ≠ "" ∧ ∃ raw, raw ∈ split sep s ∧ piece = strip raw.
Proof.
  unfold split_strip. rewrite list_elem_of_In, List.filter_In, List.in_map_iff.
  rewrite negb_true_iff, String.eqb_neq. split.
  - intros [(raw & <- & Hraw) Hne]. split; [done|].
    exists raw. by rewrite list_elem_of_In.
  - intros [Hne (raw & Hraw & ->)]. split; [|done].
    exists raw. by rewrite <- list_elem_of_In.
Qed.

(** The scenario of the specification: a blank line is dropped. *)
Example split_strip_eggs :
  split_strip newline
    ("2 eggs" +:+ String newline ("1 cup flour" +:+ String newline (String newline "")))
  = ["2 eggs"; "1 cup flour"].
Proof. reflexivity. Qed.

Example split_strip_tags : split_strip comma " vegan, quick ,,dinner" = ["vegan"; "quick"; "dinner"].
Proof. reflexivity. Qed.

(** ** Updating an item *)

Lemma stored_as_list (k : string) (v : value) :
  (∀ s, v ≠ VStr s) → stored_as k v = v.
Proof.
  intros Hv. unfold stored_as.
  destruct (_ || _); [|destruct (bool_decide _)]; destruct v; try done;
    by destruct (Hv s).
Qed.


(** ** Sorting a listing *)

Lemma insert_sorted_text (key : dict → value) (x : dict) (sorted : list dict) :
  text_key key x → Forall (text_key key) sorted →
  ∃ placed, insert_sorted key x sorted = Returned placed ∧ placed ≡ₚ x :: sorted.
Proof.
  intros [s Hx]. induction sorted as [|y rest IH]; intros Hall; simpl.
  - by exists [x].
  - apply Forall_cons in Hall as [[t Hy] Hrest].
    rewrite Hx, Hy. unfold py_lt. simpl.
    destruct (String.ltb t s).
    + destruct (IH Hrest) as (placed & -> & Hperm).
      exists (y :: placed). split; [done|].
      rewrite Hperm. apply Permutation_swap.
    + by exists (x :: y :: rest).
Qed.

Lemma sort_by_text (key : dict → value) (l : list dict) :
  Forall (text_key key) l →
  ∃ sorted, sort_by key l = Returned sorted ∧ sorted ≡ₚ l.
Proof.
  induction l as [|x rest IH]; intros Hall; simpl.
  - by exists [].
  - apply Forall_cons in Hall as [Hx Hrest].
    destruct (IH Hrest) as (sorted & -> & Hperm).
    destruct (insert_sorted_text key x sorted Hx) as (placed & -> & Hplaced).
    + by rewrite Hperm.
    + exists placed. split; [done|]. by rewrite Hplaced, Hperm.
Qed.

Lemma sort_reverse_text (key : dict → value) (l : list dict) :
  Forall (text_key key) l →
  ∃ sorted, sort_reverse key l = Returned sorted ∧ sorted ≡ₚ l.
Proof.
  intros Hall. unfold sort_reverse.
  destruct (sort_by_text key (rev l)) as (sorted & -> & Hperm).
  - by rewrite <- (Permutation_rev l).
  - exists (rev sorted). split; [done|].
    by rewrite <- (Permutation_rev sorted), Hperm, <- (Permutation_rev l).
Qed.

Lemma created_at_stamped (now : Z) (id : string) (d : dict) :
  stamped d →
  text_key created_at (<["id" := VStr id]> (clean_firestore_data now d)).
Proof.
  intros [t Ht]. exists (isoformat t).
  unfold created_at, get_or, clean_firestore_data.
  by rewrite lookup_insert_ne, lookup_fmap, Ht.
Qed.

Lemma elem_of_listed (now : Z) (entries : list (string * dict)) (e : dict) :
  e ∈ listed now entries
  ↔ ∃ id d, (id, d) ∈ entries ∧ e = <["id" := VStr id]> (clean_firestore_data now d).
Proof.
  unfold listed. rewrite list_elem_of_In, List.in_map_iff. split.
  - intros ([id d] & <- & Hin). exists id, d. by rewrite list_elem_of_In.
  - intros (id & d & Hin & ->). exists (id, d). by rewrite <- list_elem_of_In.
Qed.

(** A listing of stamped documents is answered with all of them. *)
Lemma listing_stamped (name : string) (now : Z) (entries : list (string * dict))
    (w : world) :
  (∀ id d, (id, d) ∈ entries → stamped d) →
  ∃ sorted, listing name now entries w = (listing_of name sorted, w)
            ∧ ∀ e, e ∈ sorted ↔ e ∈ listed now entries.
Proof.
  intros Hall. unfold listing.
  destruct (sort_reverse_text created_at (listed now entries)) as (sorted & -> & Hperm).
  - apply Forall_forall. intros e He.
    apply elem_of_listed in He as (id & d & Hin & ->).
    apply created_at_stamped. by eapply Hall.
  - exists sorted. split; [done|]. intros e. by rewrite Hperm.
Qed.

Lemma elem_of_published (m : gmap string dict) (id : string) (d : dict) :
  (id, d) ∈ List.filter published (map_to_list m)
  ↔ m !! id = Some d ∧ d !! "status" = Some (VStr "published").
Proof.
  rewrite list_elem_of_In, List.filter_In, <- list_elem_of_In, elem_of_map_to_list.
  unfold published. simpl. by rewrite bool_decide_eq_true.
Qed.

Lemma find_none_of {A : Type} (p : A → bool) (l : list A) :
  (∀ x, x ∈ l → p x = false) → List.find p l = None.
Proof.
  intros Hall. destruct (List.find p l) as [x|] eqn:Hfind; [|done].
  apply List.find_some in Hfind as [Hin Hp].
  apply list_elem_of_In, Hall in Hin. congruence.
Qed.

Lemma present_field (data : dict) (f : string) (v : value) :
  missing data f = false → data !! f = Some v → get data f = v ∧ truthy v = true.
Proof.
  unfold missing, get. intros Hm Hv. rewrite Hv in Hm |- *.
  split; [done|]. by apply negb_false_iff.
Qed.

(** ** Creating an item *)

(** What a successful blog creation writes. *)
Lemma create_blog_writes (req : request) (w : world) (data : dict) :
  admin_session (session w) →
  given (json req) = Some data →
  (∀ f, f ∈ required_fields → missing data f = false) →
  ∃ doc safe_data,
    create_blog req w
    = (created "blog" safe_data "Blog created successfully",
       World (session w)
         (with_blogs (db w) (<[auto_id req := doc]> (blogs (db w)))))
    ∧ doc !! "status" = Some (resolve (commit_time req) (get data "status"))
    ∧ stamped doc.
Proof.
  intros Hadmin Hdata Hfields. unfold create_blog.
  rewrite (login_required_admin _ _ _ Hadmin), Hdata.
  rewrite (find_none_of _ _ Hfields).
  eexists _, _. split; [reflexivity|]. unfold doc_set, dict_of. simpl list_to_map.
  split.
  - rewrite lookup_fmap. repeat (rewrite lookup_insert_ne by done).
    by rewrite lookup_insert_eq.
  - exists (commit_time req).
    rewrite lookup_fmap. repeat (rewrite lookup_insert_ne by done).
    by rewrite lookup_insert_eq.
Qed.

(** What a successful recipe creation writes. *)
Lemma create_recipe_writes (req : request) (w : world) (data : dict) :
  admin_session (session w) →
  given (json req) = Some data →
  (∀ f, f ∈ required_fields → missing data f = false) →
  ∃ doc safe_data,
    create_recipe req w
    = (created "recipe" safe_data "Recipe created successfully",
       World (session w)
         (with_recipes (db w) (<[auto_id req := doc]> (recipes (db w)))))
    ∧ doc !! "status" = Some (resolve (commit_time req) (get data "status"))
    ∧ stamped doc.
Proof.
  intros Hadmin Hdata Hfields. unfold create_recipe.
  rewrite (login_required_admin _ _ _ Hadmin), Hdata.
  rewrite (find_none_of _ _ Hfields).
  eexists _, _. split; [reflexivity|]. unfold doc_set, dict_of. simpl list_to_map.
  split.
  - rewrite lookup_fmap. repeat (rewrite lookup_insert_ne by done).
    by rewrite lookup_insert_eq.
  - exists (commit_time req).
    rewrite lookup_fmap. repeat (rewrite lookup_insert_ne by done).
    by rewrite lookup_insert_eq.
Qed.

(** ** The status of a created item *)

(** An item stored under [new_id] with a status other than "published", in
    a collection of stamped documents: every administrator listing shows
    it and no public listing does. *)
Lemma unpublished_listings (name : string) (now : Z) (w : world)
    (m : gmap string dict) (new_id : string) (doc : dict) (s : string) :
  m !! new_id = Some doc →
  doc !! "status" = Some (VStr s) → s ≠ "published" →
  (∀ id d, m !! id = Some d → stamped d) →
  (∃ sorted, listing name now (map_to_list m) w = (listing_of name sorted, w)
     ∧ <["id" := VStr new_id]> (clean_firestore_data now doc) ∈ sorted)
  ∧ (∃ sorted,
       listing name now (List.filter published (map_to_list m)) w
       = (listing_of name sorted, w)
       ∧ ∀ e, e ∈ sorted → e !! "id" ≠ Some (VStr new_id)).
Proof.
  intros Hdoc Hstatus Hs Hstamped. split.
  - destruct (listing_stamped name now (map_to_list m) w) as (sorted & -> & Hin).
    { intros id d Hd. apply elem_of_map_to_list in Hd. by eapply Hstamped. }
    exists sorted. split; [done|]. apply Hin, elem_of_listed.
    exists new_id, doc. split; [|done]. by apply elem_of_map_to_list.
  - destruct (listing_stamped name now (List.filter published (map_to_list m)) w)
      as (sorted & -> & Hin).
    { intros id d Hd. apply elem_of_published in Hd as [Hd _]. by eapply Hstamped. }
    exists sorted. split; [done|]. intros e He Hid.
    apply Hin, elem_of_listed in He as (id & d & Hd & ->).
    apply elem_of_published in Hd as [Hd Hpub].
    rewrite lookup_insert_eq in Hid. injection Hid as ->.
    rewrite Hdoc in Hd. injection Hd as <-. congruence.
Qed.

Lemma stamped_insert (m : gmap string dict) (new_id : string) (doc : dict) :
  stamped doc → (∀ id d, m !! id = Some d → stamped d) →
  ∀ id d, <[new_id := doc]> m !! id = Some d → stamped d.
Proof.
  intros Hdoc Hall id d Hd. apply lookup_insert_Some in Hd as [[_ <-]|[_ Hd]]; eauto.
Qed.

(** C9.  No handler compares the status of a created item with "draft"
    and "published".  For an administrator and a body whose title,
    shortDesc, content and status are present and true for Python, with any
    string [s] as status (so any non-empty string): the creation of a blog
    and of a recipe succeeds and stores the item with status [s]; and when
    [s] is not "published" and the stored documents carry their creation
    timestamp, every later listing for the administrator holds the item
    and no later public listing does. *)
Theorem status_is_not_validated (req : request) (w : world) (data : dict) (s : string) :
  admin_session (session w) →
  given (json req) = Some data →
  (∀ f, f ∈ required_fields → missing data f = false) →
  data !! "status" = Some (VStr s) →
  s ≠ ""
  ∧ (∃ doc safe_data,
       (create_blog req w).1 = created "blog" safe_data "Blog created successfully"
       ∧ blogs (db (create_blog req w).2) !! auto_id req = Some doc
       ∧ doc !! "status" = Some (VStr s)
       ∧ (s ≠ "published" →
          (∀ id d, blogs (db w) !! id = Some d → stamped d) →
          ∀ later : request,
            (∃ sorted,
               get_admin_blogs later (create_blog req w).2
               = (listing_of "blogs" sorted, (create_blog req w).2)
               ∧ <["id" := VStr (auto_id req)]> (clean_firestore_data (now later) doc)
                 ∈ sorted)
            ∧ (∃ sorted,
                 get_blogs later (create_blog req w).2
                 = (listing_of "blogs" sorted, (create_blog req w).2)
                 ∧ ∀ e, e ∈ sorted → e !! "id" ≠ Some (VStr (auto_id req)))))
  ∧ (∃ doc safe_data,
       (create_recipe req w).1 = created "recipe" safe_data "Recipe created successfully"
       ∧ recipes (db (create_recipe req w).2) !! auto_id req = Some doc
       ∧ doc !! "status" = Some (VStr s)
       ∧ (s ≠ "published" →
          (∀ id d, recipes (db w) !! id = Some d → stamped d) →
          ∀ later : request,
            (∃ sorted,
               get_admin_recipes later (create_recipe req w).2
               = (listing_of "recipes" sorted, (create_recipe req w).2)
               ∧ <["id" := VStr (auto_id req)]> (clean_firestore_data (now later) doc)
                 ∈ sorted)
            ∧ (∃ sorted,
                 get_recipes later (create_recipe req w).2
                 = (listing_of "recipes" sorted, (create_recipe req w).2)
                 ∧ ∀ e, e ∈ sorted → e !! "id" ≠ Some (VStr (auto_id req))))).
Proof.
  intros Hadmin Hdata Hfields Hstatus.
  destruct (present_field data "status" (VStr s)) as [Hget Htrue];
    [by apply Hfields, is_listed|done|].
  split.
  { intros ->. done. }
  split.
  - destruct (create_blog_writes req w data Hadmin Hdata Hfields)
      as (doc & safe_data & -> & Hdoc & Hstamped).
    rewrite Hget in Hdoc. cbn [fst snd db blogs with_blogs session] in *.
    exists doc, safe_data. split; [done|].
    split; [by rewrite lookup_insert_eq|]. split; [done|].
    intros Hs Hall later. unfold get_admin_blogs, get_blogs.
    rewrite login_required_admin by exact Hadmin.
    cbn [db blogs with_blogs].
    apply (unpublished_listings "blogs" _ _ _ _ doc s);
      [by rewrite lookup_insert_eq|done|done|by apply stamped_insert].
  - destruct (create_recipe_writes req w data Hadmin Hdata Hfields)
      as (doc & safe_data & -> & Hdoc & Hstamped).
    rewrite Hget in Hdoc. cbn [fst snd db recipes with_recipes session] in *.
    exists doc, safe_data. split; [done|].
    split; [by rewrite lookup_insert_eq|]. split; [done|].
    intros Hs Hall later. unfold get_admin_recipes, get_recipes.
    rewrite login_required_admin by exact Hadmin.
    cbn [db recipes with_recipes].
    apply (unpublished_listings "recipes" _ _ _ _ doc s);
      [by rewrite lookup_insert_eq|done|done|by apply stamped_insert].
Qed.

(** * Further properties *)

(** ** The tracker: its effect on the store *)

(** The store after a call with a view that names its item: the user's
    document keeps its role and email and gets the new list; nothing else
    changes. *)
Lemma track_user_view_internal_store (view_data : dict) (uid : string) (st : database) :
  view_shaped view_data →
  track_user_view_internal view_data uid st
  = (true,
     with_users st
       (<[uid := UserDoc (users st !! uid ≫= role) (users st !! uid ≫= email)
                         (Some (moved_to_front view_data (views_of st uid)))]>
          (users st))).
Proof.
  intros Hv. unfold track_user_view_internal, views_of.
  rewrite (printable_shaped _ Hv).
  destruct (users st !! uid) as [doc|]; simpl.
  - by rewrite (filter_views_shaped _ _ Hv).
  - done.
Qed.

Lemma views_of_with_users (st : database) (uid : string) (doc : user_doc) :
  views_of (with_users st (<[uid := doc]> (users st))) uid = default [] (recent_views doc)
  ∧ ∀ other, other ≠ uid →
      views_of (with_users st (<[uid := doc]> (users st))) other = views_of st other.
Proof.
  unfold views_of, with_users. simpl. split.
  - by rewrite lookup_insert_eq.
  - intros other Hne. by rewrite lookup_insert_ne.
Qed.

Lemma filter_all {A : Type} (p : A → bool) (l : list A) :
  (∀ x, x ∈ l → p x = true) → List.filter p l = l.
Proof.
  induction l as [|a l IH]; simpl; [done|]. intros Hall.
  rewrite (Hall a) by left. f_equal. apply IH. intros x Hx. apply Hall. by right.
Qed.

Lemma moved_to_front_twice (view_data : dict) (l : list dict) :
  moved_to_front view_data (moved_to_front view_data l) = moved_to_front view_data l.
Proof.
  rewrite !moved_to_front_take. simpl.
  set (rest := List.filter (fun v => negb (same_item v view_data)) l).
  rewrite same_item_refl. simpl.
  rewrite filter_all.
  - by rewrite take_take.
  - intros x Hx. apply subseteq_take in Hx.
    by apply list_elem_of_In, List.filter_In in Hx as [_ Hx].
Qed.

(** X1.  Recording the same view twice in a row is recording it once. *)
Theorem record_twice_is_once (view_data : dict) (uid : string) (st : database) :
  view_shaped view_data →
  track_user_view_internal view_data uid (track_user_view_internal view_data uid st).2
  = track_user_view_internal view_data uid st.
Proof.
  intros Hv. rewrite (track_user_view_internal_store _ uid st Hv). cbn [snd].
  rewrite (track_user_view_internal_store _ uid _ Hv). f_equal.
  destruct (views_of_with_users st uid
              (UserDoc (users st !! uid ≫= role) (users st !! uid ≫= email)
                 (Some (moved_to_front view_data (views_of st uid))))) as [-> _].
  unfold with_users. cbn [users blogs recipes groups members default recent_views].
  rewrite lookup_insert_eq. cbn [mbind option_bind role email].
  rewrite insert_insert_eq. unfold id. by rewrite moved_to_front_twice.
Qed.




(** ** What a request can do *)

Lemma login_required_inv (required : option string) (f : handler)
    (req : request) (w : world) :
  (login_required required f req w = f req w
   ∧ is_Some (s_uid (session w))
   ∧ (required = Some "admin" → admin_session (session w)))
  ∨ (login_required required f req w = (Redirect "login", w)
     ∧ s_uid (session w) = None)
  ∨ (login_required required f req w = (Plain "Unauthorized" 403, w)
     ∧ ∃ r, required = Some r ∧ s_role (session w) ≠ Some (VStr r)).
Proof.
  unfold login_required. destruct (s_uid (session w)) as [uid|] eqn:Huid; [|auto].
  destruct required as [r|].
  - destruct (truthy (VStr r) && negb (py_eq _ (VStr r))) eqn:Hgate.
    + right. right. split; [done|]. exists r. split; [done|].
      apply andb_true_iff in Hgate as [_ Hne]. apply negb_true_iff in Hne.
      intros E. rewrite E in Hne. simpl in Hne. by rewrite py_eq_refl in Hne.
    + left. split; [done|]. split; [by eexists|].
      intros [= ->]. split; [by eexists|].
      simpl in Hgate. apply negb_false_iff, py_eq_str in Hgate.
      destruct (s_role (session w)); simpl in Hgate; congruence.
  - left. split; [done|]. split; [by eexists|]. done.
Qed.

Lemma logged_uid_Some (s : session_state) (uid : string) :
  logged_uid s = Some uid → s_uid s = Some uid ∧ uid ≠ "".
Proof.
  unfold logged_uid. destruct (s_uid s) as [u|]; [|done].
  destruct (String.eqb u "") eqn:E; [done|]. intros [= ->].
  split; [done|]. by apply String.eqb_neq.
Qed.

Lemma listing_world (name : string) (now : Z) (entries : list (string * dict)) (w : world) :
  (listing name now entries w).2 = w.
Proof. unfold listing. by destruct (sort_reverse _ _). Qed.

(** Unfolds a gated view function and splits on the answer of the gate. *)
Ltac through_gate w :=
  match goal with
  | |- context [login_required ?required ?f ?req w] =>
      let Hrun := fresh "Hrun" in
      let Huid := fresh "Huid" in
      let Hadmin := fresh "Hadmin" in
      destruct (login_required_inv required f req w)
        as [(Hrun & Huid & Hadmin)|[[Hrun _]|[Hrun _]]];
      rewrite Hrun; [cbv beta|by constructor..]
  end.

(** The world after any request, for any route. *)
Lemma dispatch_effect (r : route) (req : request) (w : world) :
  effect w (dispatch r req w).2.
Proof.
  destruct r; cbn [dispatch].
  - (* session_login *)
    unfold session_login. repeat case_match; try by constructor.
    cbn [snd]. by eapply effect_login.
  - constructor.
  - (* track_user_view *)
    unfold track_user_view. through_gate w.
    destruct (logged_uid (session w)) as [uid|] eqn:Hl; [|by constructor].
    apply logged_uid_Some in Hl as [Hl _].
    destruct (given (json req)) as [data|]; [|by constructor].
    destruct (List.find _ _); [by constructor|].
    match goal with |- context [track_user_view_internal ?v uid (db w)] =>
      pose proof (effect_track w uid v Hl) as Heff;
      destruct (track_user_view_internal v uid (db w)) as [ok st] end.
    cbn [snd] in *. apply Heff. split; by eexists.
  - (* get_user_recent_views *)
    unfold get_user_recent_views. through_gate w.
    repeat case_match; by constructor.
  - (* remove_recent_view *)
    unfold remove_recent_view. through_gate w.
    destruct (logged_uid (session w)) as [uid|] eqn:Hl; [|by constructor].
    apply logged_uid_Some in Hl as [Hl _].
    destruct (given (json req)) as [data|]; [|by constructor].
    destruct (negb _ || negb _); [by constructor|].
    destruct (users (db w) !! uid) as [doc|] eqn:Hdoc; [|by constructor].
    cbn [snd]. eapply effect_views; [done..|]. right. by eexists.
  - (* clear_recent_views *)
    unfold clear_recent_views. through_gate w.
    destruct (logged_uid (session w)) as [uid|] eqn:Hl; [|by constructor].
    apply logged_uid_Some in Hl as [Hl _].
    destruct (users (db w) !! uid) as [doc|] eqn:Hdoc; [|by constructor].
    cbn [snd]. eapply effect_views; [done..|]. by left.
  - unfold get_blogs. rewrite listing_world. constructor.
  - (* get_single_blog *)
    unfold get_single_blog.
    destruct (blogs (db w) !! blog_id); [|by constructor].
    destruct (s_uid (session w)) as [uid|] eqn:Huid; [|by constructor].
    cbn [snd]. apply effect_track; [done|]. split; by eexists.
  - unfold get_admin_blogs. through_gate w. rewrite listing_world. constructor.
  - (* create_blog *)
    unfold create_blog. through_gate w.
    destruct (given (json req)); [|by constructor].
    destruct (List.find _ _); [by constructor|].
    cbn [snd]. apply effect_blogs. by apply Hadmin.
  - unfold update_blog. through_gate w.
    destruct (given (json req)); [|by constructor].
    destruct (blogs (db w) !! blog_id); [|by constructor].
    cbn [snd]. apply effect_blogs. by apply Hadmin.
  - unfold delete_blog. through_gate w.
    destruct (blogs (db w) !! blog_id); [|by constructor].
    cbn [snd]. apply effect_blogs. by apply Hadmin.
  - unfold get_recipes. rewrite listing_world. constructor.
  - (* get_single_recipe *)
    unfold get_single_recipe.
    destruct (recipes (db w) !! recipe_id); [|by constructor].
    destruct (s_uid (session w)) as [uid|] eqn:Huid; [|by constructor].
    cbn [snd]. apply effect_track; [done|]. split; by eexists.
  - unfold get_admin_recipes. through_gate w. rewrite listing_world. constructor.
  - unfold create_recipe. through_gate w.
    destruct (given (json req)); [|by constructor].
    destruct (List.find _ _); [by constructor|].
    cbn [snd]. apply effect_recipes. by apply Hadmin.
  - unfold update_recipe. through_gate w.
    destruct (given (json req)); [|by constructor].
    destruct (recipes (db w) !! recipe_id); [|by constructor].
    cbn [snd]. apply effect_recipes. by apply Hadmin.
  - unfold delete_recipe. through_gate w.
    destruct (recipes (db w) !! recipe_id); [|by constructor].
    cbn [snd]. apply effect_recipes. by apply Hadmin.
  - (* create_group *)
    unfold create_group. through_gate w.
    destruct (given (json req)); [|by constructor].
    destruct (List.find _ _); [by constructor|].
    cbn [snd]. by apply effect_groups.
  - (* join_group *)
    unfold join_group. through_gate w.
    destruct (groups (db w) !! group_id) eqn:Hg; [|by constructor].
    destruct (members_of (db w) group_id !! member_ref req w); [by constructor|].
    cbn [snd].
    pose proof (effect_groups w (groups (db w))) as Heff.
    unfold with_groups, with_members in *. simpl in *.
    destruct (db w). simpl in *. by apply Heff.
Qed.

(** ** What no sequence of requests does *)

Lemma serve_invariant (P : world → Prop) (calls : list (route * request)) (w : world) :
  (∀ w w', effect w w' → P w → P w') → P w → P (serve calls w).
Proof.
  intros Hstep. revert w. induction calls as [|[r req] calls IH]; intros w Hw; [done|].
  simpl. apply IH. eapply Hstep; [apply dispatch_effect|done].
Qed.


(** The users' documents after a request: a document is never removed, it
    keeps its role and its email, and a document that appears has
    neither. *)
Lemma effect_users (w w' : world) (uid : string) :
  effect w w' →
  match users (db w) !! uid with
  | Some doc =>
      ∃ doc', users (db w') !! uid = Some doc'
              ∧ role doc' = role doc ∧ email doc' = email doc
  | None =>
      users (db w') !! uid = None
      ∨ ∃ doc', users (db w') !! uid = Some doc'
                ∧ role doc' = None ∧ email doc' = None
  end.
Proof.
  assert (Hsame : ∀ us : gmap string user_doc,
    match us !! uid with
    | Some doc => ∃ doc', us !! uid = Some doc' ∧ role doc' = role doc ∧ email doc' = email doc
    | None => us !! uid = None
              ∨ ∃ doc', us !! uid = Some doc' ∧ role doc' = None ∧ email doc' = None
    end).
  { intros us. destruct (us !! uid) as [doc|]; eauto. }
  intros [ | | |u v Hu Hv|u doc l Hu Hdoc _| | | ]; cbn [db users with_blogs with_recipes
    with_groups with_members]; try apply Hsame.
  - rewrite (track_user_view_internal_store v u (db w) Hv). cbn [snd users with_users].
    destruct (decide (uid = u)) as [->|Hne].
    + rewrite lookup_insert_eq. destruct (users (db w) !! u) as [doc|]; eauto.
    + rewrite lookup_insert_ne by done. apply Hsame.
  - cbn [users with_users]. destruct (decide (uid = u)) as [->|Hne].
    + rewrite lookup_insert_eq, Hdoc. eauto.
    + rewrite lookup_insert_ne by done. apply Hsame.
Qed.



Lemma anonymous_keeps_store (r : route) (req : request) (w : world) :
  s_uid (session w) = None → db (dispatch r req w).2 = db w.
Proof.
  intros Hnone.
  destruct (dispatch_effect r req w)
    as [ | | |u v Hu _|u doc l Hu _ _|bs [[u Hu] _]|rs [[u Hu] _]|gs ms [u Hu]];
    try done; congruence.
Qed.

(** X5.  A request without a session changes no document of the store,
    whatever the route and the body. *)
Theorem no_session_no_write (r : route) (req : request) (w : world) :
  s_uid (session w) = None → db (dispatch r req w).2 = db w.
Proof. apply anonymous_keeps_store. Qed.

(** X6.  A request of a session that is not an administrator's leaves the
    blogs and the recipes as they are, whatever the route and the body. *)
Theorem only_admin_changes_content (r : route) (req : request) (w : world) :
  ¬ admin_session (session w) →
  blogs (db (dispatch r req w).2) = blogs (db w)
  ∧ recipes (db (dispatch r req w).2) = recipes (db w).
Proof.
  intros Hnot.
  destruct (dispatch_effect r req w) as [ | | |u v Hu Hv| | | | ]; try done.
  by rewrite (track_user_view_internal_store v u (db w) Hv).
Qed.

(** X7.  No sequence of requests removes a user document or changes its role
    or its email. *)
Theorem serve_keeps_roles (calls : list (route * request)) (w : world)
    (uid : string) (doc : user_doc) :
  users (db w) !! uid = Some doc →
  ∃ doc', users (db (serve calls w)) !! uid = Some doc'
          ∧ role doc' = role doc ∧ email doc' = email doc.
Proof.
  intros Hdoc.
  apply (serve_invariant (fun w => ∃ doc', users (db w) !! uid = Some doc'
                                    ∧ role doc' = role doc ∧ email doc' = email doc));
    [|eauto].
  clear. intros w w' Heff (doc1 & Hdoc1 & Hr & He).
  pose proof (effect_users w w' uid Heff) as Hu. rewrite Hdoc1 in Hu.
  destruct Hu as (doc2 & Hdoc2 & Hr2 & He2). exists doc2. split; [done|]. split; congruence.
Qed.

(** X8.  A session that is sound stays sound through any sequence of requests:
    its user is one the identity service verified, that user's document
    exists, and the role and the email of the session are those of the
    document.  From a world without a session every session is sound. *)
Theorem serve_keeps_session_sound (calls : list (route * request)) (w : world) :
  session_sound w → session_sound (serve calls w).
Proof.
  apply serve_invariant. clear. intros w w' Heff Hw.
  assert (Hkeep : session w' = session w → session_sound w').
  { intros Hs uid Huid. rewrite Hs in *.
    destruct (Hw uid Huid) as (Htoken & doc & Hdoc & Hr & He). split; [done|].
    pose proof (effect_users w w' uid Heff) as Hu. rewrite Hdoc in Hu.
    destruct Hu as (doc' & Hdoc' & Hr' & He'). exists doc'.
    split; [done|]. split; congruence. }
  destruct Heff as [ |token u doc Htoken Hdoc| | | | | | ]; try (by apply Hkeep).
  - intros uid [= <-]. split; [by eexists|]. by exists doc.
  - by intros uid.
Qed.

(** ** The session *)

Lemma dispatch_keeps_session (r : route) (req : request) (w : world) :
  r ≠ SessionLogin → r ≠ Logout → session (dispatch r req w).2 = session w.
Proof.
  intros Hlogin Hlogout. destruct r; try done; cbn [dispatch];
    try (unfold get_blogs, get_recipes; by rewrite listing_world);
    try (unfold get_single_blog, get_single_recipe; by repeat case_match).
  all: match goal with
       | |- session (?h _ _ _).2 = _ => unfold h
       | |- session (?h _ _).2 = _ => unfold h
       end.
  all: match goal with
       | |- context [login_required ?required ?f ?req ?w] =>
           destruct (login_required_inv required f req w)
             as [(Hrun & _ & _)|[[Hrun _]|[Hrun _]]]; rewrite Hrun; [cbv beta|done..]
       end.
  all: try rewrite listing_world; try done.
  all: repeat case_match; done.
Qed.

(** X9.  Only the login and the logout routes change the session. *)
Theorem session_changes_at_login_and_logout (r : route) (req : request) (w : world) :
  session (dispatch r req w).2 ≠ session w → r = SessionLogin ∨ r = Logout.
Proof.
  intros Hchanged.
  destruct (decide (r = SessionLogin)) as [|Hlogin]; [by left|].
  destruct (decide (r = Logout)) as [|Hlogout]; [by right|].
  destruct Hchanged. by apply dispatch_keeps_session.
Qed.

(** X10.  After a logout the session is empty and the store is as it was; until
    the next login every request, on every route, leaves the world as the
    logout left it. *)
Theorem logout_ends_everything (req : request) (w : world) :
  (logout req w).2 = World no_session (db w)
  ∧ ∀ (r : route) (later : request),
      r ≠ SessionLogin →
      (dispatch r later (logout req w).2).2 = (logout req w).2.
Proof.
  split; [done|]. intros r later Hr. cbn [logout snd].
  set (w' := World no_session (db w)).
  assert (Hdb : db (dispatch r later w').2 = db w') by (by apply anonymous_keeps_store).
  assert (Hs : session (dispatch r later w').2 = session w').
  { destruct (decide (r = Logout)) as [->|Hl]; [done|].
    by apply dispatch_keeps_session. }
  destruct (dispatch r later w').2 as [s d]. simpl in *. by subst.
Qed.

(** X11.  A login request either is answered 400 and leaves the world as it is,
    or is answered with success; then the body carried a token that the
    identity service verified, the verified user has a document, and the
    session holds that user with the role and the email of the document.
    The store is never written. *)
Theorem session_login_outcomes (req : request) (w : world) :
  (∃ body, session_login req w = (Jsonify body 400, w))
  ∨ (∃ data uid doc,
       given (json req) = Some data
       ∧ verify_id_token (get data "idToken") = Returned uid
       ∧ users (db w) !! uid = Some doc
       ∧ session_login req w
         = (Jsonify [("success", JValue (VBool true))] 200,
            World (Session (Some uid)
                           (Some (default (VStr "user") (role doc)))
                           (Some (default VNone (email doc))))
                  (db w))).
Proof.
  unfold session_login, given.
  destruct (json req) as [data|]; [|eauto].
  destruct (bool_decide (data = ∅)); [eauto|].
  destruct (negb (truthy (get data "idToken"))); [eauto|].
  destruct (verify_id_token (get data "idToken")) as [uid|e] eqn:Hverify; [|eauto].
  destruct (users (db w) !! uid) as [doc|] eqn:Hdoc; [|eauto].
  right. by exists data, uid, doc.
Qed.

(** ** Recent views over HTTP *)

Lemma logged_uid_of (s : session_state) (uid : string) :
  s_uid s = Some uid → uid ≠ "" → logged_uid s = Some uid.
Proof.
  intros Huid Hne. unfold logged_uid. rewrite Huid.
  by apply String.eqb_neq in Hne as ->.
Qed.

Lemma get_user_recent_views_answer (req : request) (w : world) (uid : string) :
  s_uid (session w) = Some uid → uid ≠ "" →
  get_user_recent_views req w
  = (recent_views_of (List.map clean_view (views_of (db w) uid)), w).
Proof.
  intros Huid Hne. unfold get_user_recent_views.
  rewrite login_required_any by (by rewrite Huid).
  rewrite (logged_uid_of _ _ Huid Hne). unfold views_of.
  by destruct (users (db w) !! uid).
Qed.

(** X13.  Removing a view, by a logged-in user with a document: the stored list
    becomes the entries that do not name the item, in their order; no
    entry that names it is left; a list without such an entry stays as it
    is; and the next listing shows the new list. *)
Theorem remove_recent_view_removes (req later : request) (w : world)
    (uid : string) (doc : user_doc) (data : dict) :
  s_uid (session w) = Some uid → uid ≠ "" →
  users (db w) !! uid = Some doc →
  given (json req) = Some data →
  truthy (get data "viewId") = true → truthy (get data "viewType") = true →
  let gone := names_item (get data "viewId") (get data "viewType") in
  let w' := (remove_recent_view req w).2 in
  (remove_recent_view req w).1 = succeeded "View removed successfully"
  ∧ views_of (db w') uid = List.filter (fun v => negb (gone v)) (views_of (db w) uid)
  ∧ (∀ v, v ∈ views_of (db w') uid → gone v = false)
  ∧ ((∀ v, v ∈ views_of (db w) uid → gone v = false) →
     views_of (db w') uid = views_of (db w) uid)
  ∧ (get_user_recent_views later w').1
    = recent_views_of
        (List.map clean_view (List.filter (fun v => negb (gone v)) (views_of (db w) uid))).
Proof.
  intros Huid Hne Hdoc Hdata Hid Hty gone w'.
  assert (Hrun : remove_recent_view req w
    = (succeeded "View removed successfully",
       World (session w)
         (with_users (db w)
            (<[uid := UserDoc (role doc) (email doc)
                 (Some (List.filter (fun v => negb (gone v))
                          (default [] (recent_views doc))))]> (users (db w)))))).
  { unfold remove_recent_view. rewrite login_required_any by (by rewrite Huid).
    by rewrite (logged_uid_of _ _ Huid Hne), Hdata, Hid, Hty, Hdoc. }
  assert (Hviews : views_of (db w') uid
                   = List.filter (fun v => negb (gone v)) (views_of (db w) uid)).
  { subst w'. rewrite Hrun. cbn [snd db].
    match goal with |- context [<[uid := ?d]> _] =>
      destruct (views_of_with_users (db w) uid d) as [-> _] end.
    unfold views_of. by rewrite Hdoc. }
  split; [by rewrite Hrun|]. split; [done|]. split; [|split].
  - intros v Hv. rewrite Hviews in Hv.
    apply list_elem_of_In, List.filter_In in Hv as [_ Hv]. by apply negb_true_iff.
  - intros Hnone. rewrite Hviews. apply filter_all.
    intros v Hv. by rewrite (Hnone v Hv).
  - rewrite (get_user_recent_views_answer later w' uid); [by rewrite Hviews| |done].
    subst w'. by rewrite Hrun.
Qed.




(** X17.  A logged-in user reads an existing blog: the answer carries the blog,
    and the next listing of that user's recent views starts with it. *)
Theorem get_single_blog_then_recent_views (blog_id : string) (req later : request)
    (w : world) (uid : string) (doc : dict) :
  s_uid (session w) = Some uid → uid ≠ "" →
  blogs (db w) !! blog_id = Some doc →
  let blog_data := <["id" := VStr blog_id]> (clean_firestore_data (now req) doc) in
  (get_single_blog blog_id req w).1
  = Jsonify [("success", JValue (VBool true)); ("blog", JDoc blog_data)] 200
  ∧ ∃ first rest,
      (get_user_recent_views later (get_single_blog blog_id req w).2).1
      = recent_views_of (first :: rest)
      ∧ first !! "type" = Some (VStr "blog")
      ∧ first !! "id" = Some (VStr blog_id)
      ∧ first !! "title" = Some (get_or blog_data "title" (VStr "Untitled Blog"))
      ∧ first !! "url" = Some (VStr ("/blog/" +:+ blog_id)).
Proof.
  intros Huid Hne Hdoc blog_data. unfold get_single_blog. rewrite Hdoc, Huid.
  cbn [fst snd]. split; [done|].
  rewrite (get_user_recent_views_answer later _ uid); [|done..].
  cbn [fst db].
  match goal with |- context [track_user_view_internal ?v uid (db w)] =>
    set (view_data := v) end.
  assert (Hshaped : view_shaped view_data) by (split; by eexists).
  destruct (track_user_view_internal_views view_data uid (db w) Hshaped)
    as (_ & -> & _).
  rewrite moved_to_front_take. simpl.
  eexists _, _. split; [reflexivity|].
  unfold clean_view. rewrite !lookup_fmap.
  assert (Htitle : ∃ s, get_or blog_data "title" (VStr "Untitled Blog") = s
                        ∧ ∀ t, s ≠ VTime t).
  { eexists. split; [done|]. intros t. unfold get_or, blog_data, clean_firestore_data.
    rewrite lookup_insert_ne, lookup_fmap by done.
    destruct (doc !! "title") as [[]|]; simpl; try done. by case_match. }
  destruct Htitle as (s & Hs & Hnot).
  unfold view_data, dict_of. simpl list_to_map. fold blog_data. rewrite Hs.
  repeat split; repeat (rewrite lookup_insert_ne by done);
    rewrite lookup_insert_eq; try done.
  simpl. destruct s; try done. by destruct (Hnot t).
Qed.

(** ** Cleaning *)

(** X21.  [clean_firestore_data] keeps the keys, turns every timestamp and
    every sentinel into a string, so that the result has nothing that
    [jsonify] cannot print, and leaves numbers, booleans, lists and [None]
    as they are. *)
Theorem clean_firestore_data_safe (now : Z) (data : dict) (k : string) :
  (clean_firestore_data now data !! k = None ↔ data !! k = None)
  ∧ (∀ v, clean_firestore_data now data !! k = Some v → json_safe v)
  ∧ (∀ t, data !! k = Some (VTime t) →
          clean_firestore_data now data !! k = Some (VStr (isoformat t)))
  ∧ (data !! k = Some VServerTimestamp →
     clean_firestore_data now data !! k = Some (VStr (isoformat now)))
  ∧ (∀ v, data !! k = Some v → (∀ s, v ≠ VStr s) → json_safe v →
          clean_firestore_data now data !! k = Some v).
Proof.
  unfold clean_firestore_data. rewrite lookup_fmap.
  split; [by rewrite fmap_None|]. split; [|split; [|split]].
  - intros v Hv. apply fmap_Some in Hv as (x & _ & ->).
    destruct x; simpl; try (split; done). by case_match.
  - by intros t ->.
  - by intros ->.
  - intros v -> Hstr [Htime Hsent]. destruct v; simpl; try done.
    + by destruct (Hstr s).
    + by destruct (Htime t).
Qed.

(** ** Listings *)

Lemma insert_sorted_perm (key : dict → value) (x : dict) (sorted placed : list dict) :
  insert_sorted key x sorted = Returned placed → placed ≡ₚ x :: sorted.
Proof.
  revert placed. induction sorted as [|y rest IH]; intros placed; simpl.
  - by intros [= <-].
  - destruct (py_lt (key y) (key x)) as [[|]|]; [|by intros [= <-]|done].
    destruct (insert_sorted key x rest) as [placed'|]; [|done].
    intros [= <-]. rewrite (IH placed' eq_refl). apply Permutation_swap.
Qed.

Lemma sort_by_perm (key : dict → value) (l sorted : list dict) :
  sort_by key l = Returned sorted → sorted ≡ₚ l.
Proof.
  revert sorted. induction l as [|x rest IH]; intros sorted; simpl.
  - by intros [= <-].
  - destruct (sort_by key rest) as [sorted'|]; [|done].
    intros Hins. apply insert_sorted_perm in Hins. by rewrite Hins, (IH sorted' eq_refl).
Qed.

Lemma sort_reverse_perm (key : dict → value) (l sorted : list dict) :
  sort_reverse key l = Returned sorted → sorted ≡ₚ l.
Proof.
  unfold sort_reverse. destruct (sort_by key (rev l)) as [s|] eqn:Hs; [|done].
  intros [= <-]. apply sort_by_perm in Hs.
  by rewrite <- (Permutation_rev s), Hs, <- (Permutation_rev l).
Qed.

Lemma listing_answer (name : string) (now : Z) (entries : list (string * dict)) (w : world) :
  (∃ sorted, listing name now entries w = (listing_of name sorted, w)
             ∧ sorted ≡ₚ listed now entries)
  ∨ (∃ e, listing name now entries w = (crashed e, w)).
Proof.
  unfold listing. destruct (sort_reverse created_at (listed now entries)) as [s|e] eqn:Hs.
  - left. exists s. split; [done|]. by apply (sort_reverse_perm created_at).
  - right. by exists e.
Qed.

Lemma published_listings (req : request) (w : world) :
  ((∃ e, get_blogs req w = (crashed e, w))
   ∨ ∃ sorted, get_blogs req w = (listing_of "blogs" sorted, w)
       ∧ sorted ≡ₚ listed (now req) (List.filter published (map_to_list (blogs (db w))))
       ∧ ∀ entry, entry ∈ sorted ↔
           ∃ id doc, blogs (db w) !! id = Some doc
             ∧ doc !! "status" = Some (VStr "published")
             ∧ entry = <["id" := VStr id]> (clean_firestore_data (now req) doc))
  ∧ ((∃ e, get_recipes req w = (crashed e, w))
     ∨ ∃ sorted, get_recipes req w = (listing_of "recipes" sorted, w)
         ∧ sorted ≡ₚ listed (now req) (List.filter published (map_to_list (recipes (db w))))
         ∧ ∀ entry, entry ∈ sorted ↔
             ∃ id doc, recipes (db w) !! id = Some doc
               ∧ doc !! "status" = Some (VStr "published")
               ∧ entry = <["id" := VStr id]> (clean_firestore_data (now req) doc)).
Proof.
  assert (Hany : ∀ name (m : gmap string dict),
    (∃ e, listing name (now req) (List.filter published (map_to_list m)) w = (crashed e, w))
    ∨ ∃ sorted,
        listing name (now req) (List.filter published (map_to_list m)) w
        = (listing_of name sorted, w)
        ∧ sorted ≡ₚ listed (now req) (List.filter published (map_to_list m))
        ∧ ∀ entry, entry ∈ sorted ↔
            ∃ id doc, m !! id = Some doc
              ∧ doc !! "status" = Some (VStr "published")
              ∧ entry = <["id" := VStr id]> (clean_firestore_data (now req) doc)).
  { intros name m.
    destruct (listing_answer name (now req) (List.filter published (map_to_list m)) w)
      as [(sorted & Hrun & Hperm)|[e He]]; [right|left; eauto].
    exists sorted. split; [done|]. split; [done|].
    intros entry. rewrite Hperm, elem_of_listed. split.
    - intros (id & doc & Hin & ->). apply elem_of_published in Hin as [? ?]. eauto.
    - intros (id & doc & ? & ? & ->). exists id, doc. split; [|done].
      by apply elem_of_published. }
  split; apply Hany.
Qed.

(** X19.  The public listing of blogs is answered either with a 500 or with the
    published blogs, each once and no other: an entry for every stored blog
    whose status is "published", cleaned and with its id.  The listing of
    recipes does the same. *)
Theorem public_listing_is_published (req : request) (w : world) :
  ((∃ e, get_blogs req w = (crashed e, w))
   ∨ ∃ sorted, get_blogs req w = (listing_of "blogs" sorted, w)
       ∧ sorted ≡ₚ listed (now req) (List.filter published (map_to_list (blogs (db w))))
       ∧ ∀ entry, entry ∈ sorted ↔
           ∃ id doc, blogs (db w) !! id = Some doc
             ∧ doc !! "status" = Some (VStr "published")
             ∧ entry = <["id" := VStr id]> (clean_firestore_data (now req) doc))
  ∧ ((∃ e, get_recipes req w = (crashed e, w))
     ∨ ∃ sorted, get_recipes req w = (listing_of "recipes" sorted, w)
         ∧ sorted ≡ₚ listed (now req) (List.filter published (map_to_list (recipes (db w))))
         ∧ ∀ entry, entry ∈ sorted ↔
             ∃ id doc, recipes (db w) !! id = Some doc
               ∧ doc !! "status" = Some (VStr "published")
               ∧ entry = <["id" := VStr id]> (clean_firestore_data (now req) doc)).
Proof. apply published_listings. Qed.

(** ** The order of strings *)

Lemma ascii_compare_nat (a b : ascii) :
  Ascii.compare a b = (N_of_ascii a ?= N_of_ascii b)%N.
Proof. reflexivity. Qed.

Lemma ascii_compare_eq (a b : ascii) : Ascii.compare a b = Eq → a = b.
Proof.
  rewrite ascii_compare_nat. intros E%N.compare_eq.
  rewrite <- (ascii_N_embedding a), <- (ascii_N_embedding b). by rewrite E.
Qed.




(** ** The order of a listing *)






(** ** Reading one item *)

(** X18.  A stored blog whose status is not "published", and a caller without a
    session: no public listing shows the blog, and the single-blog route
    serves it all the same, with its content, and changes nothing.  The
    single-recipe route does the same for a recipe. *)
Theorem unpublished_is_served_by_id (id : string) (req : request) (w : world) (doc : dict) :
  s_uid (session w) = None →
  doc !! "status" ≠ Some (VStr "published") →
  (blogs (db w) !! id = Some doc →
     get_single_blog id req w
     = (Jsonify [("success", JValue (VBool true));
                 ("blog", JDoc (<["id" := VStr id]> (clean_firestore_data (now req) doc)))]
                200, w)
     ∧ ∀ sorted, get_blogs req w = (listing_of "blogs" sorted, w) →
         ∀ entry, entry ∈ sorted → entry !! "id" ≠ Some (VStr id))
  ∧ (recipes (db w) !! id = Some doc →
     get_single_recipe id req w
     = (Jsonify [("success", JValue (VBool true));
                 ("recipe", JDoc (<["id" := VStr id]> (clean_firestore_data (now req) doc)))]
                200, w)
     ∧ ∀ sorted, get_recipes req w = (listing_of "recipes" sorted, w) →
         ∀ entry, entry ∈ sorted → entry !! "id" ≠ Some (VStr id)).
Proof.
  intros Hnone Hstatus.
  destruct (published_listings req w) as [Hblogs Hrecipes]. split.
  - intros Hdoc. split; [unfold get_single_blog; by rewrite Hdoc, Hnone|].
    intros sorted Hrun entry Hin Hid.
    destruct Hblogs as [[e He]|(sorted' & Hrun' & _ & Hiff)];
      [rewrite Hrun in He; unfold listing_of, crashed in He; congruence|].
    rewrite Hrun in Hrun'. injection Hrun' as <-.
    apply Hiff in Hin as (id' & doc' & Hdoc' & Hpub & ->).
    rewrite lookup_insert_eq in Hid. injection Hid as ->. congruence.
  - intros Hdoc. split; [unfold get_single_recipe; by rewrite Hdoc, Hnone|].
    intros sorted Hrun entry Hin Hid.
    destruct Hrecipes as [[e He]|(sorted' & Hrun' & _ & Hiff)];
      [rewrite Hrun in He; unfold listing_of, crashed in He; congruence|].
    rewrite Hrun in Hrun'. injection Hrun' as <-.
    apply Hiff in Hin as (id' & doc' & Hdoc' & Hpub & ->).
    rewrite lookup_insert_eq in Hid. injection Hid as ->. congruence.
Qed.

(** ** Deleting an item *)

(** An administrator deletes an existing blog: the other blogs and every
    user's recent views stay as they are, entries for the deleted blog
    included; the blog is then not found by the single-blog route,
    whatever the session, and a second deletion is answered 404 and
    changes nothing. *)
Lemma delete_blog_removes (blog_id : string) (req later : request) (w : world)
    (doc : dict) :
  admin_session (session w) →
  blogs (db w) !! blog_id = Some doc →
  let w' := (delete_blog blog_id req w).2 in
  (delete_blog blog_id req w).1 = succeeded "Blog deleted successfully"
  ∧ blogs (db w') = delete blog_id (blogs (db w))
  ∧ users (db w') = users (db w)
  ∧ (∀ s : session_state,
       get_single_blog blog_id later (World s (db w'))
       = (failure "Blog not found" 404, World s (db w')))
  ∧ delete_blog blog_id later w' = (failure "Blog not found" 404, w').
Proof.
  intros Hadmin Hdoc w'.
  assert (Hrun : delete_blog blog_id req w
    = (succeeded "Blog deleted successfully",
       World (session w) (with_blogs (db w) (delete blog_id (blogs (db w)))))).
  { unfold delete_blog. by rewrite (login_required_admin _ _ _ Hadmin), Hdoc. }
  subst w'. rewrite Hrun. cbn [fst snd db blogs users with_blogs].
  split; [done|]. split; [done|]. split; [done|]. split.
  - intros s. unfold get_single_blog. cbn [db blogs with_blogs].
    by rewrite lookup_delete_eq.
  - unfold delete_blog. rewrite login_required_admin by exact Hadmin.
    cbn [db blogs with_blogs]. by rewrite lookup_delete_eq.
Qed.

(** The same for a recipe. *)
Lemma delete_recipe_removes (recipe_id : string) (req later : request) (w : world)
    (doc : dict) :
  admin_session (session w) →
  recipes (db w) !! recipe_id = Some doc →
  let w' := (delete_recipe recipe_id req w).2 in
  (delete_recipe recipe_id req w).1 = succeeded "Recipe deleted successfully"
  ∧ recipes (db w') = delete recipe_id (recipes (db w))
  ∧ users (db w') = users (db w)
  ∧ (∀ s : session_state,
       get_single_recipe recipe_id later (World s (db w'))
       = (failure "Recipe not found" 404, World s (db w')))
  ∧ delete_recipe recipe_id later w' = (failure "Recipe not found" 404, w').
Proof.
  intros Hadmin Hdoc w'.
  assert (Hrun : delete_recipe recipe_id req w
    = (succeeded "Recipe deleted successfully",
       World (session w) (with_recipes (db w) (delete recipe_id (recipes (db w)))))).
  { unfold delete_recipe. by rewrite (login_required_admin _ _ _ Hadmin), Hdoc. }
  subst w'. rewrite Hrun. cbn [fst snd db recipes users with_recipes].
  split; [done|]. split; [done|]. split; [done|]. split.
  - intros s. unfold get_single_recipe. cbn [db recipes with_recipes].
    by rewrite lookup_delete_eq.
  - unfold delete_recipe. rewrite login_required_admin by exact Hadmin.
    cbn [db recipes with_recipes]. by rewrite lookup_delete_eq.
Qed.

(** ** The ids of the items *)

(** Whatever the request and the session: an update leaves the set of
    blog ids as it is (it never creates a blog), a deletion removes at
    most the id it names, and a creation adds at most the id that the
    store picked. *)
Lemma blog_ids (blog_id : string) (req : request) (w : world) :
  dom (blogs (db (update_blog blog_id req w).2)) = dom (blogs (db w))
  ∧ (dom (blogs (db (delete_blog blog_id req w).2)) = dom (blogs (db w))
     ∨ dom (blogs (db (delete_blog blog_id req w).2)) = dom (blogs (db w)) ∖ {[blog_id]})
  ∧ (dom (blogs (db (create_blog req w).2)) = dom (blogs (db w))
     ∨ dom (blogs (db (create_blog req w).2)) = {[auto_id req]} ∪ dom (blogs (db w))).
Proof.
  split; [|split].
  - unfold update_blog. through_gate w.
    destruct (given (json req)); [|done].
    destruct (blogs (db w) !! blog_id) eqn:Hdoc; [|done].
    cbn [snd db blogs with_blogs]. by apply dom_insert_lookup_L.
  - unfold delete_blog. through_gate w; [|by left..].
    destruct (blogs (db w) !! blog_id) eqn:Hdoc; [|by left].
    right. cbn [snd db blogs with_blogs]. apply dom_delete_L.
  - unfold create_blog. through_gate w; [|by left..].
    destruct (given (json req)); [|by left].
    destruct (List.find _ _); [by left|].
    right. cbn [snd db blogs with_blogs]. apply dom_insert_L.
Qed.

(** The same for the recipes. *)
Lemma recipe_ids (recipe_id : string) (req : request) (w : world) :
  dom (recipes (db (update_recipe recipe_id req w).2)) = dom (recipes (db w))
  ∧ (dom (recipes (db (delete_recipe recipe_id req w).2)) = dom (recipes (db w))
     ∨ dom (recipes (db (delete_recipe recipe_id req w).2))
       = dom (recipes (db w)) ∖ {[recipe_id]})
  ∧ (dom (recipes (db (create_recipe req w).2)) = dom (recipes (db w))
     ∨ dom (recipes (db (create_recipe req w).2))
       = {[auto_id req]} ∪ dom (recipes (db w))).
Proof.
  split; [|split].
  - unfold update_recipe. through_gate w.
    destruct (given (json req)); [|done].
    destruct (recipes (db w) !! recipe_id) eqn:Hdoc; [|done].
    cbn [snd db recipes with_recipes]. by apply dom_insert_lookup_L.
  - unfold delete_recipe. through_gate w; [|by left..].
    destruct (recipes (db w) !! recipe_id) eqn:Hdoc; [|by left].
    right. cbn [snd db recipes with_recipes]. apply dom_delete_L.
  - unfold create_recipe. through_gate w; [|by left..].
    destruct (given (json req)); [|by left].
    destruct (List.find _ _); [by left|].
    right. cbn [snd db recipes with_recipes]. apply dom_insert_L.
Qed.

(** ** The document of a created item *)





(** ** Groups *)


(** A request to create a group without a session, without a body or
    without one of name, description and category changes nothing. *)
Theorem create_group_refused (req : request) (w : world) (field : string) :
  field ∈ group_fields →
  missing (default ∅ (json req)) field = true →
  (create_group req w).2 = w
  ∧ (is_Some (s_uid (session w)) →
     ∃ msg, (create_group req w).1 = failure msg 400).
Proof.
  intros Hfield Hmissing.
  assert (Hfind : ∀ d, given (json req) = Some d →
            ∃ f, List.find (missing d) group_fields = Some f).
  { intros d Hd. unfold given in Hd. destruct (json req) as [d'|]; [|done].
    destruct (bool_decide (d' = ∅)); [done|]. injection Hd as ->.
    destruct (find_some_of (missing d) group_fields field Hfield Hmissing) as (f & ? & _).
    eauto. }
  unfold create_group. split.
  - through_gate w. destruct (given (json req)) as [d|]; [|done].
    by destruct (Hfind d eq_refl) as [f ->].
  - intros Huid. rewrite login_required_any by done.
    destruct (given (json req)) as [d|]; [|eauto].
    destruct (Hfind d eq_refl) as [f ->]. eauto.
Qed.

(** ** Messages *)


(** X30.  Who is refused: a caller who is no member of the group gets a 403, a
    member whose text is missing or blank gets a 400; neither changes the
    forum. *)
Theorem send_message_refused (group_id : string) (req : request) (f : forum) (uid : string) :
  s_uid (session (site f)) = Some uid →
  (members_of (db (site f)) group_id !! uid = None →
     send_message group_id req f = (failure "Not a member of this group" 403, f))
  ∧ (is_Some (members_of (db (site f)) group_id !! uid) →
     (default ∅ (json req) !! "content" = None
      ∨ ∃ text, default ∅ (json req) !! "content" = Some (VStr text) ∧ strip text = "") →
     send_message group_id req f = (failure "Message content required" 400, f)).
Proof.
  intros Huid. unfold send_message, login_required_on. rewrite Huid.
  assert (member_ref req (site f) = uid) as -> by (unfold member_ref; by rewrite Huid).
  split.
  - by intros ->.
  - intros [m ->] Hcontent. unfold message_content, given.
    destruct (json req) as [d|]; [|done]. simpl in Hcontent.
    destruct (bool_decide (d = ∅)); [done|].
    destruct Hcontent as [->|(text & -> & Hblank)]; [done|].
    by rewrite Hblank.
Qed.

(** ** Login and the gate *)

(** X12.  After a successful login the gate follows the stored role: without a
    required role every view function runs, and with a required role it
    runs exactly when the user's document has that role, a document
    without a role counting as "user". *)
Theorem login_then_gate (req later : request) (w : world) (data : dict) (uid : string)
    (doc : user_doc) (required : string) (f : handler) :
  given (json req) = Some data →
  truthy (get data "idToken") = true →
  verify_id_token (get data "idToken") = Returned uid →
  users (db w) !! uid = Some doc →
  required ≠ "" →
  let w' := (session_login req w).2 in
  login_required None f later w' = f later w'
  ∧ login_required (Some required) f later w'
    = if bool_decide (default (VStr "user") (role doc) = VStr required)
      then f later w' else (Plain "Unauthorized" 403, w').
Proof.
  intros Hdata Htoken Hverify Hdoc Hreq w'.
  assert (Hrun : w' = World (Session (Some uid)
                               (Some (default (VStr "user") (role doc)))
                               (Some (default VNone (email doc)))) (db w)).
  { subst w'. unfold session_login, given in *.
    destruct (json req) as [d|]; [|done].
    destruct (bool_decide (d = ∅)); [done|]. injection Hdata as ->.
    by rewrite Htoken, Hverify, Hdoc. }
  rewrite Hrun. split; [done|].
  unfold login_required. cbn [session s_uid s_role default].
  assert (truthy (VStr required) = true) as ->.
  { simpl. by apply negb_true_iff, String.eqb_neq. }
  cbn [andb]. destruct (py_eq _ (VStr required)) eqn:Heq.
  - apply py_eq_str in Heq. by rewrite bool_decide_eq_true_2.
  - rewrite bool_decide_eq_false_2; [done|]. intros E. rewrite E in Heq.
    by rewrite py_eq_refl in Heq.
Qed.

(** ** The normalization of the recipe handlers *)

#[local] Arguments String.append !_ _ / : simpl nomatch.

Lemma rstrip_idem (s : string) : rstrip (rstrip s) = rstrip s.
Proof.
  induction s as [|c s IH]; simpl; [done|].
  destruct (rstrip s) as [|k kept] eqn:Hk.
  - destruct (isspace c) eqn:Hc; simpl; [done|]. by rewrite Hc.
  - simpl in *. by rewrite IH.
Qed.

Lemma rstrip_head (s : string) (c : ascii) (kept : string) :
  rstrip s = String c kept → ∃ rest, s = String c rest.
Proof.
  destruct s as [|a s]; simpl; [done|].
  destruct (rstrip s); [destruct (isspace a)|]; intros [= -> _]; eauto; done.
Qed.

Lemma strip_idem (s : string) : strip (strip s) = strip s.
Proof.
  unfold strip. set (u := lstrip s).
  assert (Hl : lstrip (rstrip u) = rstrip u).
  { destruct (rstrip u) as [|c kept] eqn:Hk; [done|].
    destruct (rstrip_head _ _ _ Hk) as [rest Hu].
    apply lstrip_head in Hu. simpl. by rewrite Hu. }
  by rewrite Hl, rstrip_idem.
Qed.

Lemma chars_append (a b : string) :
  list_ascii_of_string (a +:+ b)
  = (list_ascii_of_string a ++ list_ascii_of_string b)%list.
Proof. induction a as [|c a IH]; simpl; [done|]. by rewrite IH. Qed.

Lemma strip_chars (s : string) (c : ascii) :
  c ∈ list_ascii_of_string (strip s) → c ∈ list_ascii_of_string s.
Proof.
  destruct (strip_both s) as (pre & suf & Hs & _). intros Hc.
  rewrite Hs, !chars_append, !elem_of_app. auto.
Qed.

Lemma split_whole (sep : ascii) (s : string) :
  sep ∉ list_ascii_of_string s → split sep s = [s].
Proof.
  induction s as [|c s IH]; simpl; [done|].
  rewrite not_elem_of_cons. intros [Hne Hs].
  assert (Ascii.eqb c sep = false) as -> by (apply Ascii.eqb_neq; congruence).
  by rewrite (IH Hs).
Qed.

Lemma split_append (sep : ascii) (piece rest : string) :
  sep ∉ list_ascii_of_string piece →
  split sep (piece +:+ String sep rest) = piece :: split sep rest.
Proof.
  induction piece as [|c piece IH]; simpl.
  - intros _. by rewrite Ascii.eqb_refl.
  - rewrite not_elem_of_cons. intros [Hne Hs].
    assert (Ascii.eqb c sep = false) as -> by (apply Ascii.eqb_neq; congruence).
    by rewrite (IH Hs).
Qed.

(** Splitting what was joined gives the pieces back. *)
Lemma split_concat (sep : ascii) (pieces : list string) :
  Forall (fun piece => sep ∉ list_ascii_of_string piece) pieces →
  pieces ≠ [] →
  split sep (String.concat (String sep EmptyString) pieces) = pieces.
Proof.
  induction pieces as [|p pieces IH]; [done|]. intros Hall _.
  apply Forall_cons in Hall as [Hp Hrest].
  destruct pieces as [|q pieces]; simpl.
  - by apply split_whole.
  - change (String sep EmptyString +:+ ?x) with (String sep x).
    rewrite split_append by done. f_equal. by apply IH.
Qed.

Lemma split_strip_piece (sep : ascii) (s piece : string) :
  piece ∈ split_strip sep s →
  piece ≠ "" ∧ strip piece = piece ∧ sep ∉ list_ascii_of_string piece.
Proof.
  intros Hin. apply split_strip_pieces in Hin as [Hne (raw & Hraw & ->)].
  split; [done|]. split; [apply strip_idem|].
  intros Hsep. apply strip_chars in Hsep.
  pose proof (split_pieces sep s) as Hall. rewrite Forall_forall in Hall.
  by apply (Hall raw Hraw).
Qed.

(** X26.  The pieces that a recipe keeps of a string: none is empty, none
    starts or ends with white space, none holds the separator. *)
Theorem split_strip_clean (sep : ascii) (s piece : string) :
  piece ∈ split_strip sep s →
  piece ≠ "" ∧ strip piece = piece ∧ sep ∉ list_ascii_of_string piece.
Proof. apply split_strip_piece. Qed.

(** X27.  A list that the normalization produced, joined with the separator
    and submitted again as a string, is normalized to the same list. *)
Theorem split_strip_again (sep : ascii) (s : string) :
  split_strip sep (String.concat (String sep EmptyString) (split_strip sep s))
  = split_strip sep s.
Proof.
  set (pieces := split_strip sep s).
  assert (Hclean : ∀ piece, piece ∈ pieces →
            piece ≠ "" ∧ strip piece = piece ∧ sep ∉ list_ascii_of_string piece).
  { intros piece. apply split_strip_piece. }
  destruct pieces as [|p more] eqn:Hp; [done|].
  unfold split_strip at 1. rewrite split_concat.
  - assert (Hmap : ∀ l : list string,
              (∀ x, x ∈ l → x ≠ "" ∧ strip x = x ∧ sep ∉ list_ascii_of_string x) →
              List.filter (fun piece => negb (String.eqb piece "")) (List.map strip l) = l).
    { induction l as [|x l IH]; intros Hl; simpl; [done|].
      destruct (Hl x) as (Hne & -> & _); [left|].
      apply String.eqb_neq in Hne as ->. simpl. f_equal.
      apply IH. intros y Hy. apply Hl. by right. }
    by apply Hmap.
  - apply Forall_forall. intros x Hx. by apply Hclean.
  - done.
Qed.

(** ** Deleting, and the ids that remain *)

(** X24.  An administrator deletes an existing blog or recipe: the other items
    and every user's recent views stay as they are, entries for the
    deleted item included; the item is then not found by the single-item
    route, whatever the session, and a second deletion is answered 404 and
    changes nothing. *)
Theorem delete_removes (id : string) (req later : request) (w : world) :
  admin_session (session w) →
  (∀ doc, blogs (db w) !! id = Some doc →
     let w' := (delete_blog id req w).2 in
     (delete_blog id req w).1 = succeeded "Blog deleted successfully"
     ∧ blogs (db w') = delete id (blogs (db w))
     ∧ users (db w') = users (db w)
     ∧ (∀ s : session_state,
          get_single_blog id later (World s (db w'))
          = (failure "Blog not found" 404, World s (db w')))
     ∧ delete_blog id later w' = (failure "Blog not found" 404, w'))
  ∧ (∀ doc, recipes (db w) !! id = Some doc →
     let w' := (delete_recipe id req w).2 in
     (delete_recipe id req w).1 = succeeded "Recipe deleted successfully"
     ∧ recipes (db w') = delete id (recipes (db w))
     ∧ users (db w') = users (db w)
     ∧ (∀ s : session_state,
          get_single_recipe id later (World s (db w'))
          = (failure "Recipe not found" 404, World s (db w')))
     ∧ delete_recipe id later w' = (failure "Recipe not found" 404, w')).
Proof.
  intros Hadmin. split; intros doc Hdoc.
  - by apply (delete_blog_removes id req later w doc).
  - by apply (delete_recipe_removes id req later w doc).
Qed.

(** X25.  Whatever the request and the session: an update leaves the set of
    ids of the blogs, and of the recipes, as it is (it never creates an
    item), a deletion removes at most the id it names, and a creation adds
    at most the id that the store picked. *)
Theorem item_ids (id : string) (req : request) (w : world) :
  (dom (blogs (db (update_blog id req w).2)) = dom (blogs (db w))
   ∧ (dom (blogs (db (delete_blog id req w).2)) = dom (blogs (db w))
      ∨ dom (blogs (db (delete_blog id req w).2)) = dom (blogs (db w)) ∖ {[id]})
   ∧ (dom (blogs (db (create_blog req w).2)) = dom (blogs (db w))
      ∨ dom (blogs (db (create_blog req w).2)) = {[auto_id req]} ∪ dom (blogs (db w))))
  ∧ (dom (recipes (db (update_recipe id req w).2)) = dom (recipes (db w))
     ∧ (dom (recipes (db (delete_recipe id req w).2)) = dom (recipes (db w))
        ∨ dom (recipes (db (delete_recipe id req w).2)) = dom (recipes (db w)) ∖ {[id]})
     ∧ (dom (recipes (db (create_recipe req w).2)) = dom (recipes (db w))
        ∨ dom (recipes (db (create_recipe req w).2))
          = {[auto_id req]} ∪ dom (recipes (db w)))).
Proof. split; [apply blog_ids|apply recipe_ids]. Qed.

(** ** The order of the public listing *)


End App.

(** * The theorems at concrete inputs *)

#[local] Existing Instance example_platform.



Example record_sequence_result :
  views_of (record_all [view_b1 "Stretching"; view_r1; view_b1 "Stretching, revised"]
              "ada" empty_database).2 "ada"
  = [view_b1 "Stretching, revised"; view_r1].
Proof. vm_compute. reflexivity. Qed.

(** Recording 51 distinct items leaves the 50 most recent; the first one
    recorded is evicted. *)
Example record_51_evicts_oldest :
  List.map (fun v => get v "id")
    (views_of (record_all (List.map view_numbered (seq 0 51)) "ada" empty_database).2 "ada")
  = List.map (fun n => VStr (pretty n)) (rev (seq 1 50)).
Proof. vm_compute. reflexivity. Qed.


Lemma login_required_decides_witness :
  Some "admin" ≠ Some ""
  ∧ login_required (Some "admin") (join_group "g1") (request_with []) example_world
    = gate_answer (spec_authorization_check (Some "admin") (session example_world))
        (join_group "g1") (request_with []) example_world
  ∧ ∀ (uid : string) (mail : option value) (st : database),
      login_required (Some "user") (join_group "g1") (request_with [])
        (World (Session (Some uid) (Some (VStr "admin")) mail) st)
      = (Plain "Unauthorized" 403,
         World (Session (Some uid) (Some (VStr "admin")) mail) st).
Proof.
  assert (H1 : Some "admin" ≠ Some "") by discriminate.
  split; [exact H1|].
  exact (login_required_decides (Some "admin") (join_group "g1") (request_with [])
           example_world H1).
Defined.

Lemma session_login_verified_witness :
  let req := request_with [("idToken", VStr "token-of-ada")] in
  let data : dict := list_to_map [("idToken", VStr "token-of-ada")] in
  let w := World no_session example_database in
  given (json req) = Some data
  ∧ truthy (get data "idToken") = true
  ∧ verify_id_token (Platform := example_platform) (get data "idToken") = Returned "ada"
  ∧ (users (db w) !! "ada" = None →
       session_login (H := example_platform) req w
       = (Jsonify [("error", JValue (VStr "User not found"))] 400, w))
  ∧ (∀ doc : user_doc, users (db w) !! "ada" = Some doc →
       (session_login (H := example_platform) req w).1
       = Jsonify [("success", JValue (VBool true))] 200
       ∧ session (session_login (H := example_platform) req w).2
         = Session (Some "ada")
                   (Some (default (VStr "user") (role doc)))
                   (Some (default VNone (email doc)))
       ∧ db (session_login (H := example_platform) req w).2 = db w).
Proof.
  intros req data w.
  assert (H1 : given (json req) = Some data) by reflexivity.
  assert (H2 : truthy (get data "idToken") = true) by reflexivity.
  assert (H3 : verify_id_token (Platform := example_platform) (get data "idToken")
               = Returned "ada") by reflexivity.
  split; [exact H1|]. split; [exact H2|]. split; [exact H3|].
  exact (session_login_verified (H := example_platform) req w data "ada" H1 H2 H3).
Defined.

Lemma create_blog_validation_witness :
  let req := request_with [("title", VStr "Core work"); ("shortDesc", VStr "Planks");
                           ("status", VStr "draft")] in
  "content" ∈ required_fields
  ∧ (default ∅ (json req) !! "content" = None
     ∨ (∃ v, default ∅ (json req) !! "content" = Some v ∧ truthy v = false))
  ∧ (create_blog req example_world).2 = example_world
  ∧ (admin_session (session example_world) →
     ∃ msg, (create_blog req example_world).1 = failure msg 400
       ∧ (msg = "No data provided"
          ∨ ∃ f, f ∈ required_fields ∧ msg = "Missing required field: " +:+ f)).
Proof.
  intros req.
  assert (H1 : "content" ∈ required_fields) by (by apply is_listed).
  assert (H2 : default ∅ (json req) !! "content" = None
               ∨ (∃ v, default ∅ (json req) !! "content" = Some v ∧ truthy v = false))
    by (left; reflexivity).
  split; [exact H1|]. split; [exact H2|].
  exact (create_blog_validation req example_world "content" H1 H2).
Defined.

Example create_blog_without_content :
  create_blog (request_with [("title", VStr "Core work"); ("shortDesc", VStr "Planks");
                             ("status", VStr "draft")]) example_world
  = (failure "Missing required field: content" 400, example_world).
Proof. vm_compute. reflexivity. Qed.

Lemma join_group_membership_witness :
  s_uid (session example_world) = Some "ada"
  ∧ is_Some (groups (db example_world) !! "g1")
  ∧ members_of (db example_world) "g1" !! "ada" = None
  ∧ (join_group "g1" (request_with []) example_world).1
    = succeeded "Joined group successfully"
  ∧ member_count (db (join_group "g1" (request_with []) example_world).2) "g1"
    = S (member_count (db example_world) "g1")
  ∧ ∀ again : request,
      join_group "g1" again (join_group "g1" (request_with []) example_world).2
      = (failure "Already a member" 400,
         (join_group "g1" (request_with []) example_world).2).
Proof.
  assert (H1 : s_uid (session example_world) = Some "ada") by reflexivity.
  assert (H2 : is_Some (groups (db example_world) !! "g1")) by (by eexists).
  assert (H3 : members_of (db example_world) "g1" !! "ada" = None) by reflexivity.
  split; [exact H1|]. split; [exact H2|]. split; [exact H3|].
  destruct (join_group_membership "g1" (request_with []) example_world "ada" H1)
    as (_ & _ & Hjoin).
  destruct (Hjoin H2 H3) as (Hok & _ & Hcount & _ & Hagain).
  split; [exact Hok|]. split; [exact Hcount|]. exact Hagain.
Defined.

Lemma missing_user_document_witness :
  let remove_req := request_with [("viewId", VStr "b1"); ("viewType", VStr "blog")] in
  let data : dict := list_to_map [("viewId", VStr "b1"); ("viewType", VStr "blog")] in
  s_uid (session orphan_world) = Some "ada" ∧ "ada" ≠ ""
  ∧ users (db orphan_world) !! "ada" = None
  ∧ given (json remove_req) = Some data
  ∧ truthy (get data "viewId") = true ∧ truthy (get data "viewType") = true
  ∧ get_user_recent_views (H := example_platform) (request_with []) orphan_world
    = (Jsonify [("success", JValue (VBool true)); ("recent_views", JDocs [])] 200,
       orphan_world)
  ∧ remove_recent_view remove_req orphan_world
    = (failure "User not found" 404, orphan_world).
Proof.
  intros remove_req data.
  assert (H1 : s_uid (session orphan_world) = Some "ada") by reflexivity.
  assert (H2 : "ada" ≠ "") by discriminate.
  assert (H3 : users (db orphan_world) !! "ada" = None) by reflexivity.
  assert (H4 : given (json remove_req) = Some data) by reflexivity.
  assert (H5 : truthy (get data "viewId") = true) by reflexivity.
  assert (H6 : truthy (get data "viewType") = true) by reflexivity.
  split; [exact H1|]. split; [exact H2|]. split; [exact H3|]. split; [exact H4|].
  split; [exact H5|]. split; [exact H6|].
  exact (missing_user_document (H := example_platform) (request_with []) remove_req
           orphan_world "ada" data H1 H2 H3 H4 H5 H6).
Defined.




Lemma status_is_not_validated_witness :
  let body := [("title", VStr "Cold plunge"); ("shortDesc", VStr "Why and how");
               ("content", VStr "Breathe first."); ("status", VStr "archived")] in
  let req := request_with body in
  admin_session (session example_world)
  ∧ given (json req) = Some (list_to_map body)
  ∧ (∀ f, f ∈ required_fields → missing (list_to_map body) f = false)
  ∧ (list_to_map body : dict) !! "status" = Some (VStr "archived")
  ∧ "archived" ≠ "published"
  ∧ (∀ id d, blogs (db example_world) !! id = Some d → stamped d)
  ∧ ∃ doc,
      blogs (db (create_blog req example_world).2) !! auto_id req = Some doc
      ∧ doc !! "status" = Some (VStr "archived")
      ∧ ∀ later : request,
          (∃ sorted,
             get_admin_blogs later (create_blog req example_world).2
             = (listing_of "blogs" sorted, (create_blog req example_world).2)
             ∧ <["id" := VStr (auto_id req)]> (clean_firestore_data (now later) doc)
               ∈ sorted)
          ∧ (∃ sorted,
               get_blogs later (create_blog req example_world).2
               = (listing_of "blogs" sorted, (create_blog req example_world).2)
               ∧ ∀ e, e ∈ sorted → e !! "id" ≠ Some (VStr (auto_id req))).
Proof.
  intros body req.
  assert (H1 : admin_session (session example_world)) by (split; [by eexists|done]).
  assert (H2 : given (json req) = Some (list_to_map body)) by reflexivity.
  assert (H3 : ∀ f, f ∈ required_fields → missing (list_to_map body) f = false).
  { intros f Hf. unfold required_fields in Hf.
    repeat (apply elem_of_cons in Hf as [->|Hf]); try reflexivity.
    by apply elem_of_nil in Hf. }
  assert (H4 : (list_to_map body : dict) !! "status" = Some (VStr "archived"))
    by reflexivity.
  assert (H5 : "archived" ≠ "published") by discriminate.
  assert (H6 : ∀ id d, blogs (db example_world) !! id = Some d → stamped d).
  { intros id d Hd. cbn in Hd. apply lookup_singleton_Some in Hd as [_ <-].
    by exists 100. }
  split; [exact H1|]. split; [exact H2|]. split; [exact H3|]. split; [exact H4|].
  split; [exact H5|]. split; [exact H6|].
  destruct (status_is_not_validated req example_world (list_to_map body) "archived"
              H1 H2 H3 H4) as (_ & (doc & safe_data & _ & Hdoc & Hstatus & Hlist) & _).
  exists doc. split; [exact Hdoc|]. split; [exact Hstatus|]. exact (Hlist H5 H6).
Defined.

(** The listings after that creation, evaluated. *)
Example archived_blog_listings :
  let req := request_with [("title", VStr "Cold plunge"); ("shortDesc", VStr "Why and how");
                           ("content", VStr "Breathe first."); ("status", VStr "archived")] in
  let w := (create_blog req example_world).2 in
  (∃ sorted, (get_admin_blogs (request_with []) w).1 = listing_of "blogs" sorted
             ∧ List.map (fun e => get e "id") sorted = [VStr "n1"; VStr "b1"])
  ∧ (∃ sorted, (get_blogs (request_with []) w).1 = listing_of "blogs" sorted
               ∧ List.map (fun e => get e "id") sorted = [VStr "b1"]).
Proof.
  split; eexists; split; vm_compute; reflexivity.
Qed.

(** C2 at the failing input: user "ada", logged in, reads blog "b1"; the
    view that is recorded for her has the six fields that the handler
    builds and no [viewedAt]. *)
Theorem blog_view_recorded_without_viewedAt :
  views_of (db (get_single_blog "b1" (request_with []) example_world).2) "ada"
  = [list_to_map [("type", VStr "blog"); ("id", VStr "b1"); ("title", VStr "Stretching");
                  ("description", VStr "Ten minutes a day"); ("image", VStr "");
                  ("url", VStr "/blog/b1")]]
  ∧ (views_of (db (get_single_blog "b1" (request_with []) example_world).2) "ada"
       !! 0%nat ≫= (.!! "viewedAt")) = None.
Proof. split; vm_compute; reflexivity. Qed.

(** The track-view endpoint, by contrast, stamps the view and takes no
    [viewedAt] from the client. *)
Example track_view_is_stamped :
  let req := request_with [("type", VStr "blog"); ("id", VStr "b1");
                           ("title", VStr "Stretching"); ("url", VStr "/blog/b1");
                           ("viewedAt", VStr "1999-01-01")] in
  (views_of (db (track_user_view req example_world).2) "ada"
     !! 0%nat ≫= (.!! "viewedAt")) = Some VServerTimestamp.
Proof. vm_compute. reflexivity. Qed.

(** * The further properties at concrete inputs *)

#[local] Existing Instance example_faults.



Lemma record_twice_is_once_witness :
  view_shaped (view_b1 "Stretching")
  ∧ track_user_view_internal (view_b1 "Stretching") "ada"
      (track_user_view_internal (view_b1 "Stretching") "ada" example_database).2
    = track_user_view_internal (view_b1 "Stretching") "ada" example_database.
Proof.
  assert (H1 : view_shaped (view_b1 "Stretching")) by (split; by eexists).
  split; [exact H1|].
  exact (record_twice_is_once (view_b1 "Stretching") "ada" example_database H1).
Defined.




Lemma no_session_no_write_witness :
  s_uid (session visitor_world) = None
  ∧ db (dispatch CreateBlog (request_with blog_body) visitor_world).2 = db visitor_world.
Proof.
  assert (H1 : s_uid (session visitor_world) = None) by reflexivity.
  split; [exact H1|].
  exact (no_session_no_write CreateBlog (request_with blog_body) visitor_world H1).
Defined.

Lemma only_admin_changes_content_witness :
  ¬ admin_session (session bob_world)
  ∧ blogs (db (dispatch (DeleteBlog "b1") (request_with []) bob_world).2)
    = blogs (db bob_world)
  ∧ recipes (db (dispatch (DeleteBlog "b1") (request_with []) bob_world).2)
    = recipes (db bob_world).
Proof.
  assert (H1 : ¬ admin_session (session bob_world)) by (intros [_ Hrole]; discriminate).
  split; [exact H1|].
  exact (only_admin_changes_content (DeleteBlog "b1") (request_with []) bob_world H1).
Defined.

Lemma serve_keeps_roles_witness :
  let calls := [(SingleBlog "b1", request_with []); (ClearRecentViews, request_with [])] in
  users (db viewer_world) !! "ada" = Some viewer_doc
  ∧ ∃ doc', users (db (serve calls viewer_world)) !! "ada" = Some doc'
            ∧ role doc' = role viewer_doc ∧ email doc' = email viewer_doc.
Proof.
  intros calls.
  assert (H1 : users (db viewer_world) !! "ada" = Some viewer_doc) by reflexivity.
  split; [exact H1|].
  exact (serve_keeps_roles calls viewer_world "ada" viewer_doc H1).
Defined.

Lemma serve_keeps_session_sound_witness :
  let calls := [(SessionLogin, request_with login_body);
                (SingleBlog "b1", request_with [])] in
  session_sound (World no_session example_database)
  ∧ session_sound (serve calls (World no_session example_database)).
Proof.
  intros calls.
  assert (H1 : session_sound (World no_session example_database)) by (by intros uid).
  split; [exact H1|].
  exact (serve_keeps_session_sound calls (World no_session example_database) H1).
Defined.

Example login_then_read :
  let calls := [(SessionLogin, request_with login_body);
                (SingleBlog "b1", request_with [])] in
  session (serve calls (World no_session example_database)) = ada_session
  ∧ List.map (fun v => get v "id")
      (views_of (db (serve calls (World no_session example_database))) "ada")
    = [VStr "b1"].
Proof. split; vm_compute; reflexivity. Qed.

Lemma session_changes_at_login_and_logout_witness :
  session (dispatch Logout (request_with []) example_world).2 ≠ session example_world
  ∧ (Logout = SessionLogin ∨ Logout = Logout).
Proof.
  assert (H1 : session (dispatch Logout (request_with []) example_world).2
               ≠ session example_world) by discriminate.
  split; [exact H1|].
  exact (session_changes_at_login_and_logout Logout (request_with []) example_world H1).
Defined.

Lemma login_then_gate_witness :
  let req := request_with login_body in
  let w := World no_session example_database in
  let doc := UserDoc (Some (VStr "admin")) (Some (VStr "ada@fit.example")) None in
  given (json req) = Some (list_to_map login_body)
  ∧ truthy (get (list_to_map login_body) "idToken") = true
  ∧ verify_id_token (get (list_to_map login_body) "idToken") = Returned "ada"
  ∧ users (db w) !! "ada" = Some doc
  ∧ "user" ≠ ""
  ∧ login_required None get_admin_blogs (request_with []) (session_login req w).2
    = get_admin_blogs (request_with []) (session_login req w).2
  ∧ login_required (Some "user") get_admin_blogs (request_with []) (session_login req w).2
    = if bool_decide (default (VStr "user") (role doc) = VStr "user")
      then get_admin_blogs (request_with []) (session_login req w).2
      else (Plain "Unauthorized" 403, (session_login req w).2).
Proof.
  intros req w doc.
  assert (H1 : given (json req) = Some (list_to_map login_body)) by reflexivity.
  assert (H2 : truthy (get (list_to_map login_body) "idToken") = true) by reflexivity.
  assert (H3 : verify_id_token (get (list_to_map login_body) "idToken") = Returned "ada")
    by reflexivity.
  assert (H4 : users (db w) !! "ada" = Some doc) by reflexivity.
  assert (H5 : "user" ≠ "") by discriminate.
  split; [exact H1|]. split; [exact H2|]. split; [exact H3|]. split; [exact H4|].
  split; [exact H5|].
  exact (login_then_gate req (request_with []) w (list_to_map login_body) "ada" doc
           "user" get_admin_blogs H1 H2 H3 H4 H5).
Defined.

Lemma remove_recent_view_removes_witness :
  let req := request_with remove_body in
  let data : dict := list_to_map remove_body in
  let gone := names_item (get data "viewId") (get data "viewType") in
  s_uid (session viewer_world) = Some "ada" ∧ "ada" ≠ ""
  ∧ users (db viewer_world) !! "ada" = Some viewer_doc
  ∧ given (json req) = Some data
  ∧ truthy (get data "viewId") = true ∧ truthy (get data "viewType") = true
  ∧ (remove_recent_view req viewer_world).1 = succeeded "View removed successfully"
  ∧ views_of (db (remove_recent_view req viewer_world).2) "ada"
    = List.filter (fun v => negb (gone v)) (views_of (db viewer_world) "ada")
  ∧ (∀ v, v ∈ views_of (db (remove_recent_view req viewer_world).2) "ada" →
          gone v = false).
Proof.
  intros req data gone.
  assert (H1 : s_uid (session viewer_world) = Some "ada") by reflexivity.
  assert (H2 : "ada" ≠ "") by discriminate.
  assert (H3 : users (db viewer_world) !! "ada" = Some viewer_doc) by reflexivity.
  assert (H4 : given (json req) = Some data) by reflexivity.
  assert (H5 : truthy (get data "viewId") = true) by reflexivity.
  assert (H6 : truthy (get data "viewType") = true) by reflexivity.
  split; [exact H1|]. split; [exact H2|]. split; [exact H3|]. split; [exact H4|].
  split; [exact H5|]. split; [exact H6|].
  destruct (remove_recent_view_removes req (request_with []) viewer_world "ada"
              viewer_doc data H1 H2 H3 H4 H5 H6) as (Ha & Hb & Hc & _).
  split; [exact Ha|]. split; [exact Hb|exact Hc].
Defined.

Example remove_then_list :
  (get_user_recent_views (request_with [])
     (remove_recent_view (request_with remove_body) viewer_world).2).1
  = recent_views_of [view_r1].
Proof. vm_compute. reflexivity. Qed.





Lemma get_single_blog_then_recent_views_witness :
  s_uid (session example_world) = Some "ada" ∧ "ada" ≠ ""
  ∧ blogs (db example_world) !! "b1" = Some blog_b1
  ∧ ∃ first rest,
      (get_user_recent_views (request_with [])
         (get_single_blog "b1" (request_with []) example_world).2).1
      = recent_views_of (first :: rest)
      ∧ first !! "type" = Some (VStr "blog")
      ∧ first !! "id" = Some (VStr "b1").
Proof.
  assert (H1 : s_uid (session example_world) = Some "ada") by reflexivity.
  assert (H2 : "ada" ≠ "") by discriminate.
  assert (H3 : blogs (db example_world) !! "b1" = Some blog_b1) by reflexivity.
  split; [exact H1|]. split; [exact H2|]. split; [exact H3|].
  destruct (get_single_blog_then_recent_views "b1" (request_with []) (request_with [])
              example_world "ada" blog_b1 H1 H2 H3)
    as (_ & first & rest & Ha & Hb & Hc & _).
  exists first, rest. split; [exact Ha|]. split; [exact Hb|exact Hc].
Defined.

Lemma unpublished_is_served_by_id_witness :
  s_uid (session visitor_world) = None
  ∧ blog_d1 !! "status" ≠ Some (VStr "published")
  ∧ blogs (db visitor_world) !! "d1" = Some blog_d1
  ∧ get_single_blog "d1" (request_with []) visitor_world
    = (Jsonify [("success", JValue (VBool true));
                ("blog", JDoc (<["id" := VStr "d1"]>
                                 (clean_firestore_data (now (request_with [])) blog_d1)))]
               200, visitor_world)
  ∧ ∀ sorted, get_blogs (request_with []) visitor_world
              = (listing_of "blogs" sorted, visitor_world) →
      ∀ entry, entry ∈ sorted → entry !! "id" ≠ Some (VStr "d1").
Proof.
  assert (H1 : s_uid (session visitor_world) = None) by reflexivity.
  assert (H2 : blog_d1 !! "status" ≠ Some (VStr "published")) by discriminate.
  assert (H3 : blogs (db visitor_world) !! "d1" = Some blog_d1) by reflexivity.
  split; [exact H1|]. split; [exact H2|]. split; [exact H3|].
  destruct (unpublished_is_served_by_id "d1" (request_with []) visitor_world blog_d1
              H1 H2) as [Hblog _].
  exact (Hblog H3).
Defined.







Lemma delete_removes_witness :
  admin_session (session example_world)
  ∧ blogs (db example_world) !! "b1" = Some blog_b1
  ∧ (delete_blog "b1" (request_with []) example_world).1
    = succeeded "Blog deleted successfully"
  ∧ (∀ s : session_state,
       get_single_blog "b1" (request_with [])
         (World s (db (delete_blog "b1" (request_with []) example_world).2))
       = (failure "Blog not found" 404,
          World s (db (delete_blog "b1" (request_with []) example_world).2))).
Proof.
  assert (H1 : admin_session (session example_world)) by (split; [by eexists|done]).
  assert (H2 : blogs (db example_world) !! "b1" = Some blog_b1) by reflexivity.
  split; [exact H1|]. split; [exact H2|].
  destruct (delete_removes "b1" (request_with []) (request_with []) example_world H1)
    as [Hblog _].
  destruct (Hblog blog_b1 H2) as (Ha & _ & _ & Hb & _).
  split; [exact Ha|exact Hb].
Defined.

Lemma split_strip_clean_witness :
  let text := " 2 eggs " +:+ String newline (String newline "1 cup flour") in
  "2 eggs" ∈ split_strip newline text
  ∧ "2 eggs" ≠ "" ∧ strip "2 eggs" = "2 eggs"
  ∧ newline ∉ list_ascii_of_string "2 eggs".
Proof.
  intros text.
  assert (H1 : "2 eggs" ∈ split_strip newline text) by (vm_compute; left).
  split; [exact H1|].
  exact (split_strip_clean newline text "2 eggs" H1).
Defined.



Lemma send_message_refused_witness :
  s_uid (session (site example_forum)) = Some "ada"
  ∧ members_of (db (site example_forum)) "g1" !! "ada" = None
  ∧ send_message "g1" (request_with [("content", VStr "hello")]) example_forum
    = (failure "Not a member of this group" 403, example_forum).
Proof.
  assert (H1 : s_uid (session (site example_forum)) = Some "ada") by reflexivity.
  assert (H2 : members_of (db (site example_forum)) "g1" !! "ada" = None) by reflexivity.
  split; [exact H1|]. split; [exact H2|].
  destruct (send_message_refused "g1" (request_with [("content", VStr "hello")])
              example_forum "ada" H1) as [Hrefused _].
  exact (Hrefused H2).
Defined.

(** A member's message, stripped, is stored. *)
Example member_posts_message :
  let joined := Forum (join_group "g1" (request_with []) example_world).2 ∅ in
  let sent := send_message "g1" (request_with [("content", VStr "  hello  ")]) joined in
  (messages_of sent.2 "g1" !! "n1" ≫= (.!! "content")) = Some (VStr "hello").
Proof. vm_compute. reflexivity. Qed.
